(** * A shallow embedding of [accounting_app.py]

    The general-ledger posting rules, the statement generators and the
    analytics functions of the accounting workbook, together with the
    properties its specification states about them.

    Modelling conventions.
    - A pandas DataFrame is the list of its rows, in index order; every
      frame of the program is built with [ignore_index=True], so the index
      of a row is its position.
    - [st.session_state] is an explicit [session] record threaded through
      every operation.
    - Monetary amounts are Python floats in the program; here they are
      exact rationals ([Q], compared with [==]).  Rounding, NaN and
      overflow are outside the model.  The one infinite value the program
      builds on purpose, [float('inf')] in [calculate_ratios], has its own
      constructor.
    - [datetime.now()] is an argument of the operation that reads the
      clock. *)

From Stdlib Require Import ZArith QArith Qabs Lqa Lia List String Ascii Bool.
From Stdlib Require Import DecimalString.
From Stdlib Require Import Sorted.
Import ListNotations.

Local Open Scope string_scope.
Local Open Scope list_scope.
Local Open Scope Q_scope.

(** ** Strings: f-string pieces, [str.upper], [str.contains] *)

(** [f"{n}"] for a Python int. *)
Definition str_of_Z (n : Z) : string := NilZero.string_of_int (Z.to_int n).

(** [c.upper()] on the ASCII letters; other bytes are left as they are. *)
Definition upper_ascii (c : ascii) : ascii :=
  let n := nat_of_ascii c in
  if ((97 <=? n) && (n <=? 122))%nat then ascii_of_nat (n - 32) else c.

Fixpoint upper (s : string) : string :=
  match s with
  | EmptyString => EmptyString
  | String c r => String (upper_ascii c) (upper r)
  end.

(** [Series.str.contains(pat)] for a pattern without regex metacharacters:
    the pattern occurs somewhere in the string. *)
Fixpoint contains (pat s : string) : bool :=
  String.prefix pat s ||
  match s with
  | EmptyString => false
  | String _ r => contains pat r
  end.

(** Truthiness of a Python string: non-empty. *)
Definition nonempty (s : string) : bool :=
  match s with EmptyString => false | String _ _ => true end.

(** ** Numbers *)

(** [x < y] on amounts, as a boolean. *)
Definition Qlt_bool (x y : Q) : bool := negb (Qle_bool y x).

(** Truthiness of a Python number: different from zero. *)
Definition truthy (x : Q) : bool := negb (Qeq_bool x 0).

(** [Series.sum()] of the column [f] of a frame. *)
Fixpoint col_sum {A : Type} (f : A -> Q) (rows : list A) : Q :=
  match rows with
  | [] => 0
  | r :: rest => f r + col_sum f rest
  end.

(** [df.loc[idx, ...] = ...]: the row at position [idx] is replaced by its
    image under [f]; the frames here never hold an index out of range at
    the call, and the list is returned as it is in that case. *)
Fixpoint update_at {A : Type} (idx : nat) (f : A -> A) (rows : list A) : list A :=
  match rows, idx with
  | [], _ => []
  | r :: rest, O => f r :: rest
  | r :: rest, S i => r :: update_at i f rest
  end.

(** ** Data model: the five frames of the session *)

Record date := mkDate { year : Z; month : Z; day : Z }.

Record gl_entry := mkGL {
  gl_Date : date;
  gl_Account : string;
  gl_Debit : Q;
  gl_Credit : Q;
  gl_Description : string
}.

Record receivable := mkReceivable {
  r_Date : date;
  r_Customer : string;
  r_Type : string;
  r_Amount : Q;
  r_Description : string
}.

Record payable := mkPayable {
  p_Date : date;
  p_Vendor_Category : string;
  p_Amount : Q;
  p_Description : string
}.

Record inventory_item := mkItem {
  i_Item : string;
  i_Quantity : Z;
  i_Unit_Cost : Q;
  i_Selling_Price : Q;
  i_Last_Updated : string
}.

Record fixed_asset := mkAsset {
  a_Asset_Tag : string;
  a_Asset_Name : string;
  a_Category : string;
  a_Location : string;
  a_Acquisition_Date : date;
  a_Cost : Q;
  a_Salvage_Value : Q;
  a_Useful_Life : Z;
  a_Accumulated_Depreciation : Q
}.

Record session := mkSession {
  receivables : list receivable;
  payables : list payable;
  inventory : list inventory_item;
  fixed_assets : list fixed_asset;
  general_ledger : list gl_entry
}.

(** The session as the script initialises it: five empty frames. *)
Definition empty_session : session := mkSession [] [] [] [] [].

Definition set_receivables (s : session) (v : list receivable) : session :=
  mkSession v (payables s) (inventory s) (fixed_assets s) (general_ledger s).
Definition set_payables (s : session) (v : list payable) : session :=
  mkSession (receivables s) v (inventory s) (fixed_assets s) (general_ledger s).
Definition set_inventory (s : session) (v : list inventory_item) : session :=
  mkSession (receivables s) (payables s) v (fixed_assets s) (general_ledger s).
Definition set_fixed_assets (s : session) (v : list fixed_asset) : session :=
  mkSession (receivables s) (payables s) (inventory s) v (general_ledger s).
Definition set_general_ledger (s : session) (v : list gl_entry) : session :=
  mkSession (receivables s) (payables s) (inventory s) (fixed_assets s) v.

(** What a mutating operation reports back. *)
Inductive status := success | warning | error.

(** ** Posting rules *)

Definition post_to_gl (d : date) (account : string) (debit credit : Q)
    (description : string) (s : session) : session :=
  set_general_ledger s
    (general_ledger s ++ [mkGL d account debit credit description]).

Definition add_receivable_record (d : date) (customer record_type : string)
    (amount : Q) (description : string) (s : session) : session :=
  let s := set_receivables s
             (receivables s ++ [mkReceivable d customer record_type amount description]) in
  if String.eqb record_type "Cash" then
    let memo := ("Cash Sale to " ++ customer ++ ": " ++ description)%string in
    let s := post_to_gl d "Cash" amount 0 memo s in
    post_to_gl d "Sales Revenue" 0 amount memo s
  else
    let memo := ("Credit Sale to " ++ customer ++ ": " ++ description)%string in
    let s := post_to_gl d "Accounts Receivable" amount 0 memo s in
    post_to_gl d "Sales Revenue" 0 amount memo s.

Definition add_payable_record (d : date) (vendor_category : string)
    (amount : Q) (description : string) (s : session) : session :=
  let s := set_payables s
             (payables s ++ [mkPayable d vendor_category amount description]) in
  let s := post_to_gl d "Expenses" amount 0
             ("Expense: " ++ vendor_category ++ " - " ++ description)%string s in
  post_to_gl d "Cash" 0 amount
    ("Cash Payment for " ++ vendor_category ++ ": " ++ description)%string s.

(** Position of the first row of the inventory whose [Item] is [item]:
    [inventory[inventory['Item'] == item].iloc[0].name]. *)
Fixpoint item_index (item : string) (inv : list inventory_item) : option nat :=
  match inv with
  | [] => None
  | r :: rest =>
      if String.eqb (i_Item r) item then Some O
      else option_map S (item_index item rest)
  end.

(** [item in inventory['Item'].values] *)
Definition item_in (item : string) (inv : list inventory_item) : bool :=
  existsb (fun r => String.eqb (i_Item r) item) inv.

Definition sold (quantity : Z) (now : string) (r : inventory_item) : inventory_item :=
  mkItem (i_Item r) (i_Quantity r - quantity) (i_Unit_Cost r) (i_Selling_Price r) now.

(** The two [None] branches below stand for the [IndexError] of [.iloc[0]]
    on an empty selection, which the membership test before it rules out. *)
Definition add_sale_record (now : string) (d : date) (item : string) (quantity : Z)
    (customer sale_type : string) (s : session) : (status * string) * session :=
  if negb (item_in item (inventory s)) then
    ((error, "Item not found in inventory."), s)
  else
    match item_index item (inventory s) with
    | None => ((error, "Item not found in inventory."), s)
    | Some idx =>
      match nth_error (inventory s) idx with
      | None => ((error, "Item not found in inventory."), s)
      | Some item_row =>
        if (i_Quantity item_row <? quantity)%Z then
          ((error, "Not enough stock. Only " ++ str_of_Z (i_Quantity item_row)
                   ++ " units available.")%string, s)
        else
          let total_sales_revenue := inject_Z quantity * i_Selling_Price item_row in
          let cost_of_goods_sold := inject_Z quantity * i_Unit_Cost item_row in
          let s := set_inventory s (update_at idx (sold quantity now) (inventory s)) in
          let tail := (str_of_Z quantity ++ " units of " ++ item)%string in
          let s :=
            if String.eqb sale_type "Cash" then
              post_to_gl d "Cash" total_sales_revenue 0
                ("Cash Sale of " ++ tail ++ " to " ++ customer)%string s
            else
              post_to_gl d "Accounts Receivable" total_sales_revenue 0
                ("Credit Sale of " ++ tail ++ " to " ++ customer)%string s in
          let s := post_to_gl d "Sales Revenue" 0 total_sales_revenue
                     ("Sale of " ++ tail ++ " to " ++ customer)%string s in
          let s := post_to_gl d "Cost of Goods Sold" cost_of_goods_sold 0
                     ("COGS for " ++ tail ++ " sold to " ++ customer)%string s in
          let s := post_to_gl d "Inventory" 0 cost_of_goods_sold
                     ("Inventory reduction for " ++ tail ++ " sold to " ++ customer)%string s in
          ((success, "Sale recorded successfully and inventory updated!"), s)
      end
    end.

Definition generate_asset_tag (company category : string) (yr : Z)
    (location : string) : string :=
  (upper company ++ "-" ++ upper category ++ "-" ++ str_of_Z yr ++ "-" ++ upper location)%string.

(** The rows of a frame with their index, as [DataFrame.iterrows] yields
    them. *)
Definition iterrows {A : Type} (rows : list A) : list (nat * A) :=
  combine (seq 0 (List.length rows)) rows.

Definition accumulate (amount : Q) (r : fixed_asset) : fixed_asset :=
  mkAsset (a_Asset_Tag r) (a_Asset_Name r) (a_Category r) (a_Location r)
    (a_Acquisition_Date r) (a_Cost r) (a_Salvage_Value r) (a_Useful_Life r)
    (a_Accumulated_Depreciation r + amount).

(** Straight-line amount of one year for a row. *)
Definition annual_depreciation (row : fixed_asset) : Q :=
  (a_Cost row - a_Salvage_Value row) / inject_Z (a_Useful_Life row).

(** One turn of the loop of [calculate_and_post_depreciation]. *)
Definition depreciate_row (d : date) (s : session) (ir : nat * fixed_asset) : session :=
  let (index, row) := ir in
  if (0 <? a_Useful_Life row)%Z then
    let memo := ("Annual depreciation for " ++ a_Asset_Name row)%string in
    let s := post_to_gl d "Depreciation Expense" (annual_depreciation row) 0 memo s in
    let s := post_to_gl d "Accumulated Depreciation" 0 (annual_depreciation row) memo s in
    set_fixed_assets s
      (update_at index (accumulate (annual_depreciation row)) (fixed_assets s))
  else s.

(** [gl[(gl['Account'] == 'Depreciation Expense') & (gl['Date'].dt.year == y)]]
    is not empty. *)
Definition depreciation_posted (y : Z) (gl : list gl_entry) : bool :=
  existsb (fun e => String.eqb (gl_Account e) "Depreciation Expense"
                    && (year (gl_Date e) =? y)%Z) gl.

Definition calculate_and_post_depreciation (d : date) (s : session)
    : (status * string) * session :=
  match fixed_assets s with
  | [] => ((warning, "No fixed assets to depreciate."), s)
  | _ :: _ =>
    let current_year := year d in
    if depreciation_posted current_year (general_ledger s) then
      ((warning, "Depreciation for " ++ str_of_Z current_year
                 ++ " has already been posted.")%string, s)
    else
      ((success, "Depreciation for " ++ str_of_Z current_year
                 ++ " calculated and posted for all assets.")%string,
       fold_left (depreciate_row d) (iterrows (fixed_assets s)) s)
  end.

(** ** The form handlers of the pages *)

(** "Add Receivable". *)
Definition submit_receivable (d : date) (customer record_type : string)
    (amount : Q) (description : string) (s : session) : (status * string) * session :=
  if nonempty customer && Qlt_bool 0 amount then
    ((success, "Receivable record added successfully and posted to GL!"),
     add_receivable_record d customer record_type amount description s)
  else ((error, "Please fill in Customer Name and Amount."), s).

(** "Add Payable". *)
Definition submit_payable (d : date) (vendor_category : string)
    (amount : Q) (description : string) (s : session) : (status * string) * session :=
  if nonempty vendor_category && Qlt_bool 0 amount then
    ((success, "Payable record added successfully and posted to GL!"),
     add_payable_record d vendor_category amount description s)
  else ((error, "Please fill in Vendor/Expense Category and Amount."), s).

Definition restock (quantity : Z) (unit_cost selling_price : Q) (now : string)
    (r : inventory_item) : inventory_item :=
  mkItem (i_Item r) quantity unit_cost selling_price now.

(** "Add/Update Item".  The [None] branch stands for the [IndexError] of
    [.index[0]] on an empty selection, which the membership test rules out. *)
Definition submit_inventory (now : string) (item_name : string) (quantity : Z)
    (unit_cost selling_price : Q) (s : session) : (status * string) * session :=
  if nonempty item_name && (0 <=? quantity)%Z && Qle_bool 0 unit_cost
     && Qle_bool 0 selling_price then
    if item_in item_name (inventory s) then
      match item_index item_name (inventory s) with
      | Some idx =>
          ((success, "Inventory for '" ++ item_name ++ "' updated.")%string,
           set_inventory s
             (update_at idx (restock quantity unit_cost selling_price now) (inventory s)))
      | None => ((error, "Please fill in all inventory details correctly."), s)
      end
    else
      ((success, "New inventory item '" ++ item_name ++ "' added.")%string,
       set_inventory s
         (inventory s ++ [mkItem item_name quantity unit_cost selling_price now]))
  else ((error, "Please fill in all inventory details correctly."), s).

(** "Add Asset". *)
Definition submit_asset (asset_name asset_category asset_location : string)
    (acquisition_date : date) (cost salvage_value : Q) (useful_life : Z)
    (s : session) : (status * string) * session :=
  if nonempty asset_name && Qlt_bool 0 cost && (0 <? useful_life)%Z
     && nonempty asset_category && nonempty asset_location then
    let asset_tag := generate_asset_tag "YOUR_COMPANY" asset_category
                       (year acquisition_date) asset_location in
    let s := set_fixed_assets s
               (fixed_assets s ++
                [mkAsset asset_tag asset_name asset_category asset_location
                   acquisition_date cost salvage_value useful_life 0]) in
    let s := post_to_gl acquisition_date "Fixed Assets" cost 0
               ("Acquisition of " ++ asset_name ++ " (" ++ asset_tag ++ ")")%string s in
    let s := post_to_gl acquisition_date "Cash" 0 cost
               ("Cash payment for " ++ asset_name)%string s in
    ((success, "Fixed asset '" ++ asset_name ++ "' added with tag '" ++ asset_tag
               ++ "' and posted to GL.")%string, s)
  else ((error, "Please fill in all asset details correctly."), s).

(** The events a user can raise that touch the stores or the ledger. *)
Inductive event :=
| Receivable (d : date) (customer record_type : string) (amount : Q) (description : string)
| Payable (d : date) (vendor_category : string) (amount : Q) (description : string)
| Inventory (now item_name : string) (quantity : Z) (unit_cost selling_price : Q)
| Acquisition (asset_name asset_category asset_location : string)
    (acquisition_date : date) (cost salvage_value : Q) (useful_life : Z)
| Depreciation (today : date)
| Sale (now : string) (d : date) (item : string) (quantity : Z) (customer sale_type : string).

Definition handle (e : event) (s : session) : (status * string) * session :=
  match e with
  | Receivable d c t a x => submit_receivable d c t a x s
  | Payable d v a x => submit_payable d v a x s
  | Inventory now n q c p => submit_inventory now n q c p s
  | Acquisition n c l d k v u => submit_asset n c l d k v u s
  | Depreciation today => calculate_and_post_depreciation today s
  | Sale now d i q c t => add_sale_record now d i q c t s
  end.

(** The session after a sequence of events. *)
Definition run (es : list event) (s : session) : session :=
  fold_left (fun s e => snd (handle e s)) es s.

(** ** Statement generators *)

(** [gl[gl['Account'] == account][col].sum()] *)
Definition account_sum (col : gl_entry -> Q) (account : string) (gl : list gl_entry) : Q :=
  col_sum col (filter (fun e => String.eqb (gl_Account e) account) gl).

(** A row of an [Item]/[Amount] frame: the generated income statement and
    the uploaded snapshots. *)
Record line := mkLine { l_Item : string; l_Amount : Q }.

Definition generate_income_statement (gl : list gl_entry) : list line :=
  match gl with
  | [] => []
  | _ :: _ =>
    let revenue := account_sum gl_Credit "Sales Revenue" gl in
    let cogs := account_sum gl_Debit "Cost of Goods Sold" gl in
    let gross_profit := revenue - cogs in
    let expenses := account_sum gl_Debit "Expenses" gl in
    let depreciation_expense := account_sum gl_Debit "Depreciation Expense" gl in
    let total_operating_expenses := expenses + depreciation_expense in
    let net_income := gross_profit - total_operating_expenses in
    [ mkLine "Sales Revenue" revenue;
      mkLine "Less: Cost of Goods Sold" (- cogs);
      mkLine "Gross Profit" gross_profit;
      mkLine "Less: Operating Expenses" (- expenses);
      mkLine "Less: Depreciation Expense" (- depreciation_expense);
      mkLine "Net Income (Loss)" net_income ]
  end.

Record bs_row := mkBS { b_Category : string; b_Account : string; b_Amount : Q }.

Definition generate_balance_sheet (gl : list gl_entry) : list bs_row :=
  match gl with
  | [] => []
  | _ :: _ =>
    let cash := account_sum gl_Debit "Cash" gl - account_sum gl_Credit "Cash" gl in
    let accounts_receivable :=
      account_sum gl_Debit "Accounts Receivable" gl
      - account_sum gl_Credit "Accounts Receivable" gl in
    let inventory := account_sum gl_Debit "Inventory" gl - account_sum gl_Credit "Inventory" gl in
    let fixed_assets_cost := account_sum gl_Debit "Fixed Assets" gl in
    let accumulated_depreciation := account_sum gl_Credit "Accumulated Depreciation" gl in
    let net_fixed_assets := fixed_assets_cost - accumulated_depreciation in
    let total_current_assets := cash + accounts_receivable + inventory in
    let total_non_current_assets := net_fixed_assets in
    let total_assets := total_current_assets + total_non_current_assets in
    let accounts_payable :=
      account_sum gl_Credit "Accounts Payable" gl
      - account_sum gl_Debit "Accounts Payable" gl in
    let net_income :=
      match generate_income_statement gl with
      | [] => 0
      | _ :: _ => last (map l_Amount (generate_income_statement gl)) 0
      end in
    let initial_equity := 0 in
    let retained_earnings := net_income in
    let total_equity := initial_equity + retained_earnings in
    let total_liabilities := accounts_payable in
    let total_liabilities_equity := total_liabilities + total_equity in
    [ mkBS "Current Assets" "Cash" cash;
      mkBS "Current Assets" "Accounts Receivable" accounts_receivable;
      mkBS "Current Assets" "Inventory" inventory;
      mkBS "Total Current Assets" "" total_current_assets;
      mkBS "Non-Current Assets" "Fixed Assets (Net)" net_fixed_assets;
      mkBS "Total Assets" "" total_assets;
      mkBS "Current Liabilities" "Accounts Payable" accounts_payable;
      mkBS "Total Liabilities" "" total_liabilities;
      mkBS "Equity" "Owner's Equity (Simplified)" total_equity;
      mkBS "Total Liabilities & Equity" "" total_liabilities_equity ]
  end.

(** The amount the "Financial Statements" page reads off a balance sheet:
    [bs_df[bs_df['Category'] == c]['Amount'].iloc[0] if c in
    bs_df['Category'].values else 0]. *)
Definition category_amount (c : string) (bs : list bs_row) : Q :=
  match filter (fun r => String.eqb (b_Category r) c) bs with
  | [] => 0
  | r :: _ => b_Amount r
  end.

Record cf_row := mkCF { c_Activity : string; c_Amount : Q }.

(** [gl[(gl['Account'] == 'Cash') & (gl[col] > 0)
       & (gl['Description'].str.contains(word))][col].sum()] *)
Definition cash_sum (col : gl_entry -> Q) (word : string) (gl : list gl_entry) : Q :=
  col_sum col
    (filter (fun e => String.eqb (gl_Account e) "Cash" && Qlt_bool 0 (col e)
                      && contains word (gl_Description e)) gl).

Definition generate_cash_flow_statement (gl : list gl_entry) : list cf_row :=
  match gl with
  | [] => []
  | _ :: _ =>
    let cash_in_from_sales := cash_sum gl_Debit "Sale" gl in
    let cash_out_for_expenses := cash_sum gl_Credit "Payment" gl in
    let net_cash_operating := cash_in_from_sales - cash_out_for_expenses in
    let cash_out_fixed_assets := cash_sum gl_Credit "Acquisition" gl in
    let net_cash_investing := - cash_out_fixed_assets in
    let net_cash_financing := 0 in
    let net_increase_decrease_in_cash :=
      net_cash_operating + net_cash_investing + net_cash_financing in
    let beginning_cash_balance := 0 in
    let ending_cash_balance := beginning_cash_balance + net_increase_decrease_in_cash in
    [ mkCF "Net Cash from Operating Activities" net_cash_operating;
      mkCF "Net Cash from Investing Activities" net_cash_investing;
      mkCF "Net Cash from Financing Activities" net_cash_financing;
      mkCF "Net Increase (Decrease) in Cash" net_increase_decrease_in_cash;
      mkCF "Beginning Cash Balance" beginning_cash_balance;
      mkCF "Ending Cash Balance" ending_cash_balance ]
  end.

(** ** Analytics on uploaded snapshots *)

(** [df[df['Item'] == item]['Amount'].sum()] *)
Definition item_sum (item : string) (df : list line) : Q :=
  col_sum l_Amount (filter (fun r => String.eqb (l_Item r) item) df).

(** [item in df['Item'].values] *)
Definition has_item (item : string) (df : list line) : bool :=
  existsb (fun r => String.eqb (l_Item r) item) df.

(** A ratio is a number or [float('inf')]. *)
Inductive ratio := Finite (q : Q) | Infinity.

(** The dictionary [calculate_ratios] returns, in insertion order.  The
    [try]/[except] of the source guards against frames without the
    expected columns or with non-numeric amounts, which the type [line]
    excludes. *)
Definition calculate_ratios (is_df bs_df : list line) : list (string * ratio) :=
  let revenue := item_sum "Sales Revenue" is_df in
  let cogs := item_sum "Cost of Goods Sold" is_df in
  let gross_profit := revenue - cogs in
  let operating_expenses := item_sum "Operating Expenses" is_df in
  let interest_expense := item_sum "Interest Expense" is_df in
  let taxes := item_sum "Taxes" is_df in
  let net_income := revenue - cogs - operating_expenses - interest_expense - taxes in
  let cash := item_sum "Cash" bs_df in
  let accounts_receivable := item_sum "Accounts Receivable" bs_df in
  let inventory := item_sum "Inventory" bs_df in
  let current_assets := cash + accounts_receivable + inventory in
  let fixed_assets_net := item_sum "Fixed Assets (Net)" bs_df in
  let total_assets := current_assets + fixed_assets_net in
  let accounts_payable := item_sum "Accounts Payable" bs_df in
  let current_liabilities := accounts_payable in
  let long_term_debt :=
    if has_item "Long-term Debt" bs_df then item_sum "Long-term Debt" bs_df else 0 in
  let total_liabilities := current_liabilities + long_term_debt in
  let owner_equity := item_sum "Owner's Equity (Simplified)" bs_df in
  [ ("Gross Profit Margin",
     if truthy revenue then Finite (gross_profit / revenue) else Finite 0);
    ("Net Profit Margin",
     if truthy revenue then Finite (net_income / revenue) else Finite 0);
    ("Current Ratio",
     if truthy current_liabilities then Finite (current_assets / current_liabilities)
     else Infinity);
    ("Quick Ratio",
     if truthy current_liabilities
     then Finite ((current_assets - inventory) / current_liabilities)
     else Infinity);
    ("Debt-to-Equity Ratio",
     if truthy owner_equity then Finite (total_liabilities / owner_equity) else Infinity);
    ("Accounts Receivable Turnover (Days)",
     if truthy accounts_receivable && truthy revenue
     then Finite (365 / (revenue / accounts_receivable)) else Finite 0);
    ("Return on Assets (ROA)",
     if truthy total_assets then Finite (net_income / total_assets) else Finite 0);
    ("Return on Equity (ROE)",
     if truthy owner_equity then Finite (net_income / owner_equity) else Finite 0) ].

(** [ratios[name]] *)
Fixpoint ratio_of (name : string) (ratios : list (string * ratio)) : option ratio :=
  match ratios with
  | [] => None
  | (k, v) :: rest => if String.eqb k name then Some v else ratio_of name rest
  end.

Record forecast_is_row := mkFIS {
  fi_Year : Z;
  fi_Sales_Revenue : Q;
  fi_Cost_of_Goods_Sold : Q;
  fi_Gross_Profit : Q;
  fi_Operating_Expenses : Q;
  fi_Net_Income : Q
}.

Record forecast_bs_row := mkFBS {
  fb_Year : Z;
  fb_Cash : Q;
  fb_Accounts_Receivable : Q;
  fb_Inventory : Q;
  fb_Current_Assets : Q;
  fb_Fixed_Assets_Net : Q;
  fb_Total_Assets : Q;
  fb_Accounts_Payable : Q;
  fb_Long_term_Debt : Q;
  fb_Total_Liabilities : Q;
  fb_Owner_Equity : Q;
  fb_Total_Liabilities_Equity : Q
}.

(** The [prev_*] variables of the loop of [forecast_financials]. *)
Record baseline := mkBase {
  prev_revenue : Q;
  prev_cogs : Q;
  prev_op_exp : Q;
  prev_net_income : Q;
  prev_cash : Q;
  prev_ar : Q;
  prev_inv : Q;
  prev_fixed_assets_net : Q;
  prev_ap : Q;
  prev_lt_debt : Q;
  prev_owner_equity : Q
}.

Section Forecast.
Variable this_year : Z.
Variables revenue_growth cogs_pct_revenue op_exp_pct_revenue : Q.

(** The body of the loop for year [i]: the two rows it writes and the
    baseline it leaves for the next turn. *)
Definition forecast_year (i : Z) (p : baseline)
    : forecast_is_row * forecast_bs_row * baseline :=
  let proj_revenue := prev_revenue p * (1 + revenue_growth / 100) in
  let proj_cogs := proj_revenue * (cogs_pct_revenue / 100) in
  let proj_gross_profit := proj_revenue - proj_cogs in
  let proj_op_exp := proj_revenue * (op_exp_pct_revenue / 100) in
  let proj_net_income := proj_gross_profit - proj_op_exp in
  let proj_ar := proj_revenue * 0.1 in
  let proj_inv := proj_cogs * 0.05 in
  let proj_ap := proj_cogs * 0.05 in
  let proj_cash := prev_cash p + proj_net_income - (proj_ar - prev_ar p)
                   - (proj_inv - prev_inv p) + (proj_ap - prev_ap p) in
  let proj_current_assets := proj_cash + proj_ar + proj_inv in
  let proj_fixed_assets_net := prev_fixed_assets_net p in
  let proj_total_assets := proj_current_assets + proj_fixed_assets_net in
  let proj_current_liabilities := proj_ap in
  let proj_lt_debt := prev_lt_debt p in
  let proj_total_liabilities := proj_current_liabilities + proj_lt_debt in
  let proj_owner_equity := prev_owner_equity p + proj_net_income in
  let proj_total_liabilities_equity := proj_total_liabilities + proj_owner_equity in
  (mkFIS (this_year + i) proj_revenue proj_cogs proj_gross_profit proj_op_exp
     proj_net_income,
   mkFBS (this_year + i) proj_cash proj_ar proj_inv proj_current_assets
     proj_fixed_assets_net proj_total_assets proj_ap proj_lt_debt
     proj_total_liabilities proj_owner_equity proj_total_liabilities_equity,
   mkBase proj_revenue proj_cogs proj_op_exp proj_net_income proj_cash proj_ar
     proj_inv proj_fixed_assets_net proj_ap proj_lt_debt proj_owner_equity).

(** [for i in range(i, i + n)]: the rows of the remaining [n] years. *)
Fixpoint forecast_loop (n : nat) (i : Z) (p : baseline)
    : list forecast_is_row * list forecast_bs_row :=
  match n with
  | O => ([], [])
  | S m =>
      let '(is_row, bs_row, p') := forecast_year i p in
      let (is_rows, bs_rows) := forecast_loop m (i + 1)%Z p' in
      (is_row :: is_rows, bs_row :: bs_rows)
  end.

(** [None] stands for the pair [(None, None)] of the source.  An uploaded
    snapshot is only stored when it has its [Item] and [Amount] columns, so
    the tests ['Amount' in df.columns] hold. *)
Definition forecast_financials (is_df bs_df : list line) (years : Z)
    : option (list forecast_is_row * list forecast_bs_row) :=
  match is_df, bs_df with
  | [], _ | _, [] => None
  | _ :: _, _ :: _ =>
    let current_revenue := item_sum "Sales Revenue" is_df in
    let current_cogs := item_sum "Cost of Goods Sold" is_df in
    let current_operating_expenses := item_sum "Operating Expenses" is_df in
    let current_net_income := item_sum "Net Income (Loss)" is_df in
    let current_cash := item_sum "Cash" bs_df in
    let current_ar := item_sum "Accounts Receivable" bs_df in
    let current_inv := item_sum "Inventory" bs_df in
    let current_fixed_assets_net := item_sum "Fixed Assets (Net)" bs_df in
    let current_ap := item_sum "Accounts Payable" bs_df in
    let current_lt_debt :=
      if has_item "Long-term Debt" bs_df then item_sum "Long-term Debt" bs_df else 0 in
    let current_owner_equity := item_sum "Owner's Equity (Simplified)" bs_df in
    Some (forecast_loop (Z.to_nat years) 1%Z
            (mkBase current_revenue current_cogs current_operating_expenses
               current_net_income current_cash current_ar current_inv
               current_fixed_assets_net current_ap current_lt_debt
               current_owner_equity))
  end.
End Forecast.

(** ** The remaining statements and the page code around them *)

Record tb_row := mkTB { t_Account : string; t_Debit : Q; t_Credit : Q }.

(** [a] put at its place in a list of keys in increasing order. *)
Fixpoint insert_key (a : string) (keys : list string) : list string :=
  match keys with
  | [] => [a]
  | b :: rest => if String.leb a b then a :: keys else b :: insert_key a rest
  end.

(** The group keys of [gl.groupby('Account')]: the distinct accounts of the
    ledger, in increasing order. *)
Definition group_keys (gl : list gl_entry) : list string :=
  fold_right insert_key [] (nodup string_dec (map gl_Account gl)).

(** The net balance of an account: [Debit - Credit] of its group. *)
Definition balance_of (account : string) (gl : list gl_entry) : Q :=
  account_sum gl_Debit account gl - account_sum gl_Credit account gl.

(** The row [tb_display] gets for an account, if any. *)
Definition trial_balance_row (gl : list gl_entry) (account : string) : list tb_row :=
  let balance := balance_of account gl in
  if Qlt_bool 0.01 (Qabs balance) then
    if Qlt_bool 0 balance then [mkTB account balance 0]
    else [mkTB account 0 (Qabs balance)]
  else [].

(** The frame [generate_trial_balance] returns; the row labelled ['Total']
    is the last one. *)
Definition generate_trial_balance (gl : list gl_entry) : list tb_row :=
  match gl with
  | [] => []
  | _ :: _ =>
    let tb_display := flat_map (trial_balance_row gl) (group_keys gl) in
    match tb_display with
    | [] => []
    | _ :: _ =>
        tb_display
        ++ [mkTB "Total" (col_sum t_Debit tb_display) (col_sum t_Credit tb_display)]
    end
  end.



Definition generate_statement_of_change_in_equity (gl : list gl_entry) : list line :=
  let income_statement := generate_income_statement gl in
  let net_income :=
    match income_statement with
    | [] => 0
    | _ :: _ => last (map l_Amount income_statement) 0
    end in
  let beginning_equity := 0 in
  let ending_equity := beginning_equity + net_income in
  [ mkLine "Beginning Equity Balance" beginning_equity;
    mkLine "Add: Net Income (Loss)" net_income;
    mkLine "Less: Dividends/Withdrawals (N/A in demo)" 0;
    mkLine "Ending Equity Balance" ending_equity ].

(** [df[df['Item'] == item]['Amount'].sum() if item in df['Item'].values
    else 0], as the Analytics page reads an uploaded income statement. *)
Definition item_or_zero (item : string) (df : list line) : Q :=
  if has_item item df then item_sum item df else 0.

(** The two percentages the Analytics page hands to [forecast_financials]. *)
Definition forecast_assumptions (is_df : list line) : Q * Q :=
  let current_revenue := item_or_zero "Sales Revenue" is_df in
  let current_cogs := item_or_zero "Cost of Goods Sold" is_df in
  let current_op_exp := item_or_zero "Operating Expenses" is_df in
  let cogs_pct_revenue :=
    if truthy current_revenue then current_cogs / current_revenue * 100 else 40 in
  let op_exp_pct_revenue :=
    if truthy current_revenue then current_op_exp / current_revenue * 100 else 30 in
  (cogs_pct_revenue, op_exp_pct_revenue).

(** "Run Scenario Analysis": the base and the scenario net income. *)
Definition scenario_analysis (is_df : list line)
    (scenario_revenue_growth_impact scenario_cogs_impact : Q) : Q * Q :=
  let base_revenue := item_or_zero "Sales Revenue" is_df in
  let base_cogs := item_or_zero "Cost of Goods Sold" is_df in
  let base_op_exp := item_or_zero "Operating Expenses" is_df in
  let base_net_income := base_revenue - base_cogs - base_op_exp in
  let base_cogs_pct := if truthy base_revenue then base_cogs / base_revenue * 100 else 0 in
  let scenario_revenue := base_revenue * (1 + scenario_revenue_growth_impact / 100) in
  let scenario_cogs_pct := base_cogs_pct + scenario_cogs_impact in
  let scenario_cogs := scenario_revenue * (scenario_cogs_pct / 100) in
  let scenario_op_exp := base_op_exp in
  let scenario_net_income := scenario_revenue - scenario_cogs - scenario_op_exp in
  (base_net_income, scenario_net_income).

(** "Total Recorded Expenses" of the Analytics page. *)
Definition total_payables (s : session) : Q :=
  match payables s with
  | [] => 0
  | _ :: _ => col_sum p_Amount (payables s)
  end.

(** * Vocabulary of the properties *)

(** Total debits equal total credits. *)
Definition balanced (gl : list gl_entry) : Prop :=
  col_sum gl_Debit gl == col_sum gl_Credit gl.

(** The two totals of the balance sheet, as functions of the ledger. *)
Definition total_assets_of (gl : list gl_entry) : Q :=
  (account_sum gl_Debit "Cash" gl - account_sum gl_Credit "Cash" gl)
  + (account_sum gl_Debit "Accounts Receivable" gl
     - account_sum gl_Credit "Accounts Receivable" gl)
  + (account_sum gl_Debit "Inventory" gl - account_sum gl_Credit "Inventory" gl)
  + (account_sum gl_Debit "Fixed Assets" gl
     - account_sum gl_Credit "Accumulated Depreciation" gl).

Definition total_liabilities_equity_of (gl : list gl_entry) : Q :=
  (account_sum gl_Credit "Accounts Payable" gl
   - account_sum gl_Debit "Accounts Payable" gl)
  + (0 + (account_sum gl_Credit "Sales Revenue" gl
          - account_sum gl_Debit "Cost of Goods Sold" gl
          - (account_sum gl_Debit "Expenses" gl
             + account_sum gl_Debit "Depreciation Expense" gl))).

(** A batch of entries that moves both totals of the balance sheet by the
    same amount. *)
Definition neutral (batch : list gl_entry) : Prop :=
  total_assets_of batch == total_liabilities_equity_of batch.

(** The entries one asset contributes to a depreciation run. *)
Definition depreciation_entries (d : date) (row : fixed_asset) : list gl_entry :=
  if (0 <? a_Useful_Life row)%Z then
    let memo := ("Annual depreciation for " ++ a_Asset_Name row)%string in
    [ mkGL d "Depreciation Expense" (annual_depreciation row) 0 memo;
      mkGL d "Accumulated Depreciation" 0 (annual_depreciation row) memo ]
  else [].

(** What a depreciation run does to one row of the register. *)
Definition depreciated (row : fixed_asset) : fixed_asset :=
  if (0 <? a_Useful_Life row)%Z then accumulate (annual_depreciation row) row else row.

(** The row of an item: the first row of the inventory with that name. *)
Definition item_row_of (item : string) (inv : list inventory_item) : option inventory_item :=
  find (fun r => String.eqb (i_Item r) item) inv.

(** The accumulated depreciation of the asset at position [k] of the
    register. *)
Definition accumulated_at (k : nat) (s : session) : option Q :=
  option_map a_Accumulated_Depreciation (nth_error (fixed_assets s) k).

(** The event was a depreciation run and it went through. *)
Definition is_depreciation_run (e : event) (st : status) : bool :=
  match e, st with
  | Depreciation _, success => true
  | _, _ => false
  end.

(** The asset at position [k] has the given cost, salvage value and useful
    life, and a non-negative accumulated depreciation [a]. *)
Definition asset_at (k : nat) (cost salvage : Q) (life : Z) (a : Q) (s : session) : Prop :=
  exists row,
    nth_error (fixed_assets s) k = Some row
    /\ a_Cost row = cost /\ a_Salvage_Value row = salvage
    /\ a_Useful_Life row = life
    /\ a_Accumulated_Depreciation row = a /\ 0 <= a.

(** Scenario 2 of the specification: stock ten Widgets of unit cost 5 and
    selling price 8, then sell three of them for cash to Bob. *)
Definition widget_stocked : event :=
  Inventory "2024-03-01 09:00:00" "Widget" 10 5 8.
Definition widget_sold : event :=
  Sale "2024-03-01 10:00:00" (mkDate 2024 3 1) "Widget" 3 "Bob" "Cash".
Definition scenario2 : session := run [widget_stocked; widget_sold] empty_session.

(** The amounts of the income statement as the specification words them:
    Revenue, COGS, Gross Profit, Operating Expenses, Depreciation Expense
    and Net Income, for every ledger. *)
Definition income_statement_as_worded (gl : list gl_entry) : list Q :=
  let revenue := account_sum gl_Credit "Sales Revenue" gl in
  let cogs := account_sum gl_Debit "Cost of Goods Sold" gl in
  let gross_profit := revenue - cogs in
  let operating_expenses := account_sum gl_Debit "Expenses" gl in
  let depreciation_expense := account_sum gl_Debit "Depreciation Expense" gl in
  [ revenue; cogs; gross_profit; operating_expenses; depreciation_expense;
    gross_profit - operating_expenses - depreciation_expense ].

(** The account, debit, credit and memo of an entry. *)
Definition posting (e : gl_entry) : string * Q * Q * string :=
  (gl_Account e, gl_Debit e, gl_Credit e, gl_Description e).

(** The acquisition of a truck for 1200 in cash. *)
Definition truck_acquired : event :=
  Acquisition "Truck" "Vehicle" "HQ" (mkDate 2024 1 15) 1200 200 5.

(** Scenario 5 of the specification. *)
Definition scenario5_is : list line :=
  [ mkLine "Sales Revenue" 1000; mkLine "Cost of Goods Sold" 400 ].
Definition scenario5_bs : list line :=
  [ mkLine "Cash" 200; mkLine "Accounts Receivable" 100; mkLine "Inventory" 50;
    mkLine "Fixed Assets (Net)" 650; mkLine "Accounts Payable" 0;
    mkLine "Owner's Equity (Simplified)" 1000 ].

(** Assets minus liabilities and equity of a baseline. *)
Definition gap_of (p : baseline) : Q :=
  (prev_cash p + prev_ar p + prev_inv p + prev_fixed_assets_net p)
  - (prev_ap p + prev_lt_debt p + prev_owner_equity p).

(** Scenario 4: the session after the acquisition of the truck, and the
    same session after the depreciation run of 2024. *)
Definition scenario4 : session := run [truck_acquired] empty_session.
Definition scenario4_depreciated : session :=
  snd (calculate_and_post_depreciation (mkDate 2024 12 31) scenario4).

(** A row of the inventory with nothing negative in it. *)
Definition stock_ok (r : inventory_item) : Prop :=
  (0 <= i_Quantity r)%Z /\ 0 <= i_Unit_Cost r /\ 0 <= i_Selling_Price r.

(** What identifies an asset in the register: everything but its
    accumulated depreciation. *)
Definition asset_identity (r : fixed_asset)
    : string * string * string * string * date * Q * Q * Z :=
  (a_Asset_Tag r, a_Asset_Name r, a_Category r, a_Location r,
   a_Acquisition_Date r, a_Cost r, a_Salvage_Value r, a_Useful_Life r).

(** [l] is [l'] cut short. *)
Definition extends {A : Type} (l l' : list A) : Prop := exists more, l' = l ++ more.

(** The accounts the handlers only ever debit, and those they only ever
    credit; Cash is the one account posted on both sides. *)
Definition debit_accounts : list string :=
  [ "Accounts Receivable"; "Expenses"; "Cost of Goods Sold"; "Fixed Assets";
    "Depreciation Expense" ].
Definition credit_accounts : list string :=
  [ "Sales Revenue"; "Inventory"; "Accumulated Depreciation" ].

(** An entry with an amount on one side only, and on the side its account
    is posted on. *)
Definition one_sided (e : gl_entry) : Prop :=
  (gl_Account e = "Cash" /\ (gl_Debit e = 0 \/ gl_Credit e = 0))
  \/ (In (gl_Account e) debit_accounts /\ gl_Credit e = 0)
  \/ (In (gl_Account e) credit_accounts /\ gl_Debit e = 0).

(** The register and the payables agree with the ledger. *)
Definition stores_tied (s : session) : Prop :=
  let gl := general_ledger s in
  col_sum a_Cost (fixed_assets s) == account_sum gl_Debit "Fixed Assets" gl
  /\ col_sum a_Accumulated_Depreciation (fixed_assets s)
     == account_sum gl_Credit "Accumulated Depreciation" gl
  /\ col_sum a_Accumulated_Depreciation (fixed_assets s)
     == account_sum gl_Debit "Depreciation Expense" gl
  /\ col_sum p_Amount (payables s) == account_sum gl_Debit "Expenses" gl.

(** The four frames that are never rewritten, and the register seen
    through [asset_identity]. *)
Definition grown (s s' : session) : Prop :=
  extends (receivables s) (receivables s')
  /\ extends (payables s) (payables s')
  /\ extends (general_ledger s) (general_ledger s')
  /\ extends (map asset_identity (fixed_assets s))
       (map asset_identity (fixed_assets s')).

(** The yearly runs of 2024 to 2029 on the truck of Scenario 4. *)
Definition six_years : list date :=
  [ mkDate 2024 12 31; mkDate 2025 12 31; mkDate 2026 12 31;
    mkDate 2027 12 31; mkDate 2028 12 31; mkDate 2029 12 31 ].

(** The account is left out of the trial balance: its net balance is
    within 0.01 of zero. *)
Definition hidden (gl : list gl_entry) (account : string) : bool :=
  negb (Qlt_bool 0.01 (Qabs (balance_of account gl))).



(** The events whose cash the cash flow statement can classify by memo:
    no acquisition, no payable whose cash memo has the word "Acquisition"
    in it, no sale of a negative quantity. *)
Definition cash_flow_friendly (e : event) : bool :=
  match e with
  | Acquisition _ _ _ _ _ _ _ => false
  | Payable _ vendor_category _ description =>
      negb (contains "Acquisition"
              ("Cash Payment for " ++ vendor_category ++ ": " ++ description)%string)
  | Sale _ _ _ quantity _ _ => (0 <=? quantity)%Z
  | _ => true
  end.

(** A Cash entry that the cash flow statement counts where it belongs: a
    receipt whose memo says "Sale", or a payment whose memo says "Payment"
    and not "Acquisition". *)
Definition cash_classified (e : gl_entry) : Prop :=
  gl_Account e = "Cash" ->
  (gl_Credit e = 0 /\ 0 <= gl_Debit e
   /\ contains "Sale" (gl_Description e) = true)
  \/ (gl_Debit e = 0 /\ 0 <= gl_Credit e
      /\ contains "Payment" (gl_Description e) = true
      /\ contains "Acquisition" (gl_Description e) = false).

(** Scenario 2 followed by a rent payment of 10. *)
Definition widgets_and_rent : list event :=
  [ widget_stocked; widget_sold; Payable (mkDate 2024 3 2) "Rent" 10 "March" ].

(** A revenue after [k] years of growth at [g] percent. *)
Definition compounded (g : Q) (k : nat) (base : Q) : Q :=
  Nat.iter k (fun r => r * (1 + g / 100)) base.

(** * Properties *)

#[local] Arguments String.append : simpl never.

(** ** Sums of columns *)

Lemma col_sum_app {A : Type} (f : A -> Q) (a b : list A) :
  col_sum f (a ++ b) == col_sum f a + col_sum f b.
Proof.
  induction a as [|x a IH]; simpl.
  - ring.
  - rewrite IH. ring.
Qed.

Lemma account_sum_app col account a b :
  account_sum col account (a ++ b)
  == account_sum col account a + account_sum col account b.
Proof.
  unfold account_sum. rewrite filter_app. apply col_sum_app.
Qed.

Lemma balanced_app a b : balanced a -> balanced b -> balanced (a ++ b).
Proof.
  unfold balanced. intros Ha Hb. rewrite !col_sum_app, Ha, Hb. reflexivity.
Qed.

Lemma neutral_app a b : neutral a -> neutral b -> neutral (a ++ b).
Proof.
  unfold neutral, total_assets_of, total_liabilities_equity_of.
  intros Ha Hb. rewrite !account_sum_app. lra.
Qed.

Lemma balanced_nil : balanced [].
Proof. unfold balanced. simpl. reflexivity. Qed.

Lemma neutral_nil : neutral [].
Proof. unfold neutral. vm_compute. reflexivity. Qed.

Ltac sums :=
  unfold balanced, neutral, total_assets_of, total_liabilities_equity_of, account_sum;
  simpl; try ring.

Lemma depreciation_entries_balanced d row :
  balanced (depreciation_entries d row) /\ neutral (depreciation_entries d row).
Proof.
  unfold depreciation_entries. destruct (0 <? a_Useful_Life row)%Z; split; sums.
Qed.

(** ** The loop of the depreciation run *)

Lemma update_at_app {A : Type} (f : A -> A) (pre : list A) (r : A) (rest : list A) :
  update_at (List.length pre) f (pre ++ r :: rest) = pre ++ f r :: rest.
Proof.
  induction pre as [|x pre IH]; simpl.
  - reflexivity.
  - rewrite IH. reflexivity.
Qed.

Lemma update_at_length {A : Type} (f : A -> A) (idx : nat) (rows : list A) :
  List.length (update_at idx f rows) = List.length rows.
Proof.
  revert idx. induction rows as [|r rows IH]; intros [|i]; simpl; auto.
Qed.

Lemma depreciation_loop_from d rows :
  forall pre s,
    fixed_assets s = pre ++ rows ->
    fold_left (depreciate_row d)
      (combine (seq (List.length pre) (List.length rows)) rows) s
    = mkSession (receivables s) (payables s) (inventory s)
        (pre ++ map depreciated rows)
        (general_ledger s ++ flat_map (depreciation_entries d) rows).
Proof.
  induction rows as [|r rows IH]; intros pre s Hs.
  - simpl. rewrite !app_nil_r. rewrite app_nil_r in Hs.
    destruct s; simpl in *. subst. reflexivity.
  - cbn [fold_left combine seq List.length]. unfold depreciate_row at 2.
    simpl flat_map. simpl map. unfold depreciation_entries at 1, depreciated at 1.
    destruct (0 <? a_Useful_Life r)%Z.
    + specialize (IH (pre ++ [accumulate (annual_depreciation r) r])).
      rewrite length_app, Nat.add_comm in IH. simpl in IH.
      rewrite IH.
      * simpl. rewrite <- !app_assoc. reflexivity.
      * simpl. rewrite Hs, update_at_app, <- app_assoc. reflexivity.
    + specialize (IH (pre ++ [r])).
      rewrite length_app, Nat.add_comm in IH. simpl in IH.
      rewrite IH.
      * simpl. rewrite <- !app_assoc. reflexivity.
      * rewrite Hs, <- app_assoc. reflexivity.
Qed.

Lemma depreciation_loop d s :
  fold_left (depreciate_row d) (iterrows (fixed_assets s)) s
  = mkSession (receivables s) (payables s) (inventory s)
      (map depreciated (fixed_assets s))
      (general_ledger s ++ flat_map (depreciation_entries d) (fixed_assets s)).
Proof.
  unfold iterrows. apply (depreciation_loop_from d (fixed_assets s) [] s). reflexivity.
Qed.

Lemma depreciation_batch_balanced d rows :
  balanced (flat_map (depreciation_entries d) rows)
  /\ neutral (flat_map (depreciation_entries d) rows).
Proof.
  induction rows as [|r rows [IHb IHn]]; simpl.
  - split; [apply balanced_nil | apply neutral_nil].
  - destruct (depreciation_entries_balanced d r) as [Hb Hn].
    split; [apply balanced_app | apply neutral_app]; assumption.
Qed.

(** ** What each handler appends to the ledger *)

Ltac posted :=
  simpl; rewrite <- ?app_assoc; simpl;
  eexists; split; [reflexivity | split; sums].

Ltac nothing_posted :=
  exists []; rewrite app_nil_r; split;
  [reflexivity | split; [apply balanced_nil | apply neutral_nil]].

Lemma handle_posts e s :
  exists batch,
    general_ledger (snd (handle e s)) = general_ledger s ++ batch
    /\ balanced batch /\ neutral batch.
Proof.
  destruct e; simpl handle.
  - unfold submit_receivable, add_receivable_record.
    destruct (nonempty customer && Qlt_bool 0 amount); [|nothing_posted].
    destruct (String.eqb record_type "Cash"); posted.
  - unfold submit_payable, add_payable_record.
    destruct (nonempty vendor_category && Qlt_bool 0 amount); [|nothing_posted].
    posted.
  - unfold submit_inventory.
    destruct (nonempty item_name && (0 <=? quantity)%Z && Qle_bool 0 unit_cost
              && Qle_bool 0 selling_price); [|nothing_posted].
    destruct (item_in item_name (inventory s)); [|nothing_posted].
    destruct (item_index item_name (inventory s)); nothing_posted.
  - unfold submit_asset.
    destruct (nonempty asset_name && Qlt_bool 0 cost && (0 <? useful_life)%Z
              && nonempty asset_category && nonempty asset_location);
      [|nothing_posted].
    posted.
  - unfold calculate_and_post_depreciation.
    destruct (fixed_assets s) as [|r rows] eqn:Hfa; [nothing_posted|].
    destruct (depreciation_posted (year today) (general_ledger s)); [nothing_posted|].
    rewrite <- Hfa, depreciation_loop. simpl.
    eexists. split; [reflexivity|]. apply depreciation_batch_balanced.
  - unfold add_sale_record.
    destruct (negb (item_in item (inventory s))); [nothing_posted|].
    destruct (item_index item (inventory s)) as [idx|]; [|nothing_posted].
    destruct (nth_error (inventory s) idx) as [item_row|]; [|nothing_posted].
    destruct (i_Quantity item_row <? quantity)%Z; [nothing_posted|].
    destruct (String.eqb sale_type "Cash"); posted.
Qed.

Lemma run_posts es :
  forall s, exists batch,
    general_ledger (run es s) = general_ledger s ++ batch
    /\ balanced batch /\ neutral batch.
Proof.
  induction es as [|e es IH]; intros s.
  - simpl. nothing_posted.
  - destruct (handle_posts e s) as [b1 [H1 [B1 N1]]].
    destruct (IH (snd (handle e s))) as [b2 [H2 [B2 N2]]].
    exists (b1 ++ b2).
    change (run (e :: es) s) with (run es (snd (handle e s))).
    rewrite H2, H1, app_assoc.
    split; [reflexivity|].
    split; [apply balanced_app | apply neutral_app]; assumption.
Qed.

Lemma within_tolerance (x y : Q) : x == y -> Qabs (x - y) <= 0.01.
Proof.
  intros H. apply Qabs_Qle_condition. split; lra.
Qed.

(** ** The ledger balances *)

(** C1.  Every handler appends to the ledger a batch of entries whose
    debits sum to its credits, and so, starting from the empty session,
    after every event of every sequence of events the Debit column and
    the Credit column of the whole ledger have the same sum (in
    particular within 0.01). *)
Theorem ledger_balanced_after_every_operation :
  (forall e s, exists batch,
      general_ledger (snd (handle e s)) = general_ledger s ++ batch
      /\ col_sum gl_Debit batch == col_sum gl_Credit batch)
  /\
  (forall es n,
      let gl := general_ledger (run (firstn n es) empty_session) in
      col_sum gl_Debit gl == col_sum gl_Credit gl
      /\ Qabs (col_sum gl_Debit gl - col_sum gl_Credit gl) <= 0.01).
Proof.
  split.
  - intros e s. destruct (handle_posts e s) as [b [H [B _]]].
    exists b. split; assumption.
  - intros es n gl.
    destruct (run_posts (firstn n es) empty_session) as [b [H [B _]]].
    simpl in H. assert (E : gl = b) by exact H.
    rewrite E. split; [exact B | apply within_tolerance; exact B].
Qed.

(** ** The accounting identity *)

Lemma balance_sheet_totals gl :
  gl <> [] ->
  generate_balance_sheet gl
  = [ mkBS "Current Assets" "Cash"
        (account_sum gl_Debit "Cash" gl - account_sum gl_Credit "Cash" gl);
      mkBS "Current Assets" "Accounts Receivable"
        (account_sum gl_Debit "Accounts Receivable" gl
         - account_sum gl_Credit "Accounts Receivable" gl);
      mkBS "Current Assets" "Inventory"
        (account_sum gl_Debit "Inventory" gl - account_sum gl_Credit "Inventory" gl);
      mkBS "Total Current Assets" ""
        ((account_sum gl_Debit "Cash" gl - account_sum gl_Credit "Cash" gl)
         + (account_sum gl_Debit "Accounts Receivable" gl
            - account_sum gl_Credit "Accounts Receivable" gl)
         + (account_sum gl_Debit "Inventory" gl - account_sum gl_Credit "Inventory" gl));
      mkBS "Non-Current Assets" "Fixed Assets (Net)"
        (account_sum gl_Debit "Fixed Assets" gl
         - account_sum gl_Credit "Accumulated Depreciation" gl);
      mkBS "Total Assets" "" (total_assets_of gl);
      mkBS "Current Liabilities" "Accounts Payable"
        (account_sum gl_Credit "Accounts Payable" gl
         - account_sum gl_Debit "Accounts Payable" gl);
      mkBS "Total Liabilities" ""
        (account_sum gl_Credit "Accounts Payable" gl
         - account_sum gl_Debit "Accounts Payable" gl);
      mkBS "Equity" "Owner's Equity (Simplified)"
        (0 + last (map l_Amount (generate_income_statement gl)) 0);
      mkBS "Total Liabilities & Equity" "" (total_liabilities_equity_of gl) ].
Proof.
  destruct gl as [|e gl]; [congruence|]. intros _. reflexivity.
Qed.

(** C2.  After any sequence of events from the empty session, the amount
    of the Total Assets row of the generated balance sheet equals the
    amount of its Total Liabilities & Equity row (in particular within
    0.01), where the Equity row is the net income of the generated income
    statement and the Accounts Payable row is credits minus debits to that
    account.  The amounts are read as the Financial Statements page reads
    them; unless the ledger is still empty, both rows are in the sheet. *)
Theorem balance_sheet_identity :
  forall es,
    let gl := general_ledger (run es empty_session) in
    let bs := generate_balance_sheet gl in
    category_amount "Total Assets" bs
      == category_amount "Total Liabilities & Equity" bs
    /\ Qabs (category_amount "Total Assets" bs
             - category_amount "Total Liabilities & Equity" bs) <= 0.01
    /\ category_amount "Equity" bs
       == last (map l_Amount (generate_income_statement gl)) 0
    /\ category_amount "Current Liabilities" bs
       == account_sum gl_Credit "Accounts Payable" gl
          - account_sum gl_Debit "Accounts Payable" gl
    /\ (gl = [] \/
        exists ta tle,
          In (mkBS "Total Assets" "" ta) bs
          /\ In (mkBS "Total Liabilities & Equity" "" tle) bs
          /\ ta == tle).
Proof.
  intros es gl bs.
  destruct (run_posts es empty_session) as [b [H [_ N]]].
  simpl in H. assert (E : gl = b) by exact H. rewrite <- E in N. clear H E b.
  assert (T : category_amount "Total Assets" bs
              == category_amount "Total Liabilities & Equity" bs).
  { subst bs. destruct gl as [|e gl'] eqn:G; [reflexivity|].
    rewrite balance_sheet_totals by congruence. exact N. }
  split; [exact T|]. split; [apply within_tolerance; exact T|].
  subst bs. destruct gl as [|e gl'] eqn:G.
  - repeat split; try reflexivity. left. reflexivity.
  - rewrite balance_sheet_totals by congruence.
    split; [cbn [category_amount filter b_Category String.eqb Ascii.eqb Bool.eqb b_Amount]; ring|].
    split; [reflexivity|].
    right. exists (total_assets_of (e :: gl')), (total_liabilities_equity_of (e :: gl')).
    split; [simpl; tauto|]. split; [simpl; tauto|]. exact N.
Qed.

(** ** The inventory *)

Lemma item_lookup item inv :
  match item_row_of item inv with
  | Some row =>
      item_in item inv = true
      /\ exists idx, item_index item inv = Some idx /\ nth_error inv idx = Some row
  | None => item_in item inv = false /\ item_index item inv = None
  end.
Proof.
  unfold item_row_of, item_in.
  induction inv as [|r inv IH]; simpl.
  - split; reflexivity.
  - destruct (String.eqb (i_Item r) item) eqn:E; simpl.
    + split; [reflexivity|]. exists O. split; reflexivity.
    + destruct (find _ inv) as [row|].
      * destruct IH as [Hin [idx [Hi Hn]]]. split; [exact Hin|].
        exists (S idx). rewrite Hi. split; [reflexivity | exact Hn].
      * destruct IH as [Hin Hi]. rewrite Hi. split; [exact Hin | reflexivity].
Qed.

(** C3.  A sale of an item that is in the inventory for more units than
    its row holds is refused with an error whose message gives the
    quantity in stock, and a sale of an item that is not in the inventory
    is refused with "Item not found in inventory."; in both cases the
    session returned is the session given, so neither the inventory nor
    the ledger has changed. *)
Theorem rejected_sale_changes_nothing :
  forall now d item quantity customer sale_type s,
    (forall row,
        item_row_of item (inventory s) = Some row ->
        (i_Quantity row < quantity)%Z ->
        add_sale_record now d item quantity customer sale_type s
        = ((error, ("Not enough stock. Only " ++ str_of_Z (i_Quantity row)
                    ++ " units available.")%string), s))
    /\
    (item_row_of item (inventory s) = None ->
     add_sale_record now d item quantity customer sale_type s
     = ((error, "Item not found in inventory."), s)).
Proof.
  intros now d item quantity customer sale_type s.
  pose proof (item_lookup item (inventory s)) as L.
  split.
  - intros row Hrow Hq. rewrite Hrow in L.
    destruct L as [Hin [idx [Hi Hn]]].
    unfold add_sale_record. rewrite Hin, Hi, Hn. simpl negb. cbv iota.
    apply Z.ltb_lt in Hq. rewrite Hq. reflexivity.
  - intros Hnone. rewrite Hnone in L. destruct L as [Hin _].
    unfold add_sale_record. rewrite Hin. reflexivity.
Qed.

Lemma update_at_names (f : inventory_item -> inventory_item) idx inv :
  (forall r, i_Item (f r) = i_Item r) ->
  map i_Item (update_at idx f inv) = map i_Item inv.
Proof.
  intros Hf. revert idx.
  induction inv as [|r inv IH]; intros [|i]; simpl; try reflexivity.
  - rewrite Hf. reflexivity.
  - rewrite IH. reflexivity.
Qed.

Lemma update_at_lookup (f : inventory_item -> inventory_item) name other :
  (forall r, i_Item (f r) = i_Item r) ->
  forall inv idx,
    item_index name inv = Some idx ->
    item_row_of other (update_at idx f inv)
    = if String.eqb other name then option_map f (item_row_of name inv)
      else item_row_of other inv.
Proof.
  intros Hf. unfold item_row_of.
  induction inv as [|r inv IH]; intros idx Hidx; simpl in Hidx; [discriminate|].
  destruct (String.eqb (i_Item r) name) eqn:E.
  - injection Hidx as <-. simpl. rewrite Hf, E.
    apply String.eqb_eq in E. subst name.
    rewrite (String.eqb_sym other). destruct (String.eqb (i_Item r) other); reflexivity.
  - destruct (item_index name inv) as [i|]; [|discriminate].
    injection Hidx as <-. simpl. rewrite E, (IH i eq_refl).
    destruct (String.eqb (i_Item r) other) eqn:E2; [|reflexivity].
    apply String.eqb_eq in E2. subst other.
    rewrite E. reflexivity.
Qed.

Lemma item_in_names item inv :
  item_in item inv = false -> ~ In item (map i_Item inv).
Proof.
  unfold item_in. induction inv as [|r inv IH]; simpl; [tauto|].
  destruct (String.eqb (i_Item r) item) eqn:E; simpl; [discriminate|].
  intros H [H1|H1]; [|exact (IH H H1)].
  apply String.eqb_neq in E. contradiction.
Qed.

(** Every handler leaves the item names of the inventory as they are, or
    appends one row whose name was not there. *)
Lemma handle_inventory e s :
  map i_Item (inventory (snd (handle e s))) = map i_Item (inventory s)
  \/ exists row,
       item_in (i_Item row) (inventory s) = false
       /\ inventory (snd (handle e s)) = inventory s ++ [row].
Proof.
  destruct e; simpl handle.
  - left. unfold submit_receivable, add_receivable_record.
    destruct (nonempty customer && Qlt_bool 0 amount); [|reflexivity].
    destruct (String.eqb record_type "Cash"); reflexivity.
  - left. unfold submit_payable.
    destruct (nonempty vendor_category && Qlt_bool 0 amount); reflexivity.
  - unfold submit_inventory.
    destruct (nonempty item_name && (0 <=? quantity)%Z && Qle_bool 0 unit_cost
              && Qle_bool 0 selling_price); [|left; reflexivity].
    destruct (item_in item_name (inventory s)) eqn:Hin.
    + left. destruct (item_index item_name (inventory s)); [|reflexivity].
      simpl. apply update_at_names. reflexivity.
    + right. eexists. split; [|reflexivity]. exact Hin.
  - left. unfold submit_asset.
    destruct (nonempty asset_name && Qlt_bool 0 cost && (0 <? useful_life)%Z
              && nonempty asset_category && nonempty asset_location); reflexivity.
  - left. unfold calculate_and_post_depreciation.
    destruct (fixed_assets s) as [|r rows] eqn:Hfa; [reflexivity|].
    destruct (depreciation_posted (year today) (general_ledger s)); [reflexivity|].
    rewrite <- Hfa, depreciation_loop. reflexivity.
  - left. unfold add_sale_record.
    destruct (negb (item_in item (inventory s))); [reflexivity|].
    destruct (item_index item (inventory s)) as [idx|]; [|reflexivity].
    destruct (nth_error (inventory s) idx) as [item_row|]; [|reflexivity].
    destruct (i_Quantity item_row <? quantity)%Z; [reflexivity|].
    destruct (String.eqb sale_type "Cash"); simpl;
      apply update_at_names; reflexivity.
Qed.

Lemma run_inventory_nodup es :
  forall s, NoDup (map i_Item (inventory s)) ->
            NoDup (map i_Item (inventory (run es s))).
Proof.
  induction es as [|e es IH]; intros s H; [exact H|].
  change (run (e :: es) s) with (run es (snd (handle e s))).
  apply IH. destruct (handle_inventory e s) as [E | [row [Hin E]]].
  - rewrite E. exact H.
  - rewrite E, map_app. simpl.
    apply NoDup_app; [exact H | repeat constructor; simpl; tauto |].
    intros a Ha [<-|[]]. exact (item_in_names _ _ Hin Ha).
Qed.

Lemma nodup_at_most_one name inv :
  NoDup (map i_Item inv) ->
  (List.length (filter (fun r => String.eqb (i_Item r) name) inv) <= 1)%nat.
Proof.
  induction inv as [|r inv IH]; simpl; intros H; [lia|].
  inversion H as [|x l Hnotin Hrest]; subst.
  destruct (String.eqb (i_Item r) name) eqn:E; [|exact (IH Hrest)].
  apply String.eqb_eq in E. subst name. simpl.
  assert (Z0 : filter (fun r0 => String.eqb (i_Item r0) (i_Item r)) inv = []).
  { clear - Hnotin. induction inv as [|x inv IH]; simpl; [reflexivity|].
    simpl in Hnotin. destruct (String.eqb (i_Item x) (i_Item r)) eqn:E.
    - apply String.eqb_eq in E. tauto.
    - apply IH. tauto. }
  rewrite Z0. simpl. lia.
Qed.

(** C7.  From the empty session, after any sequence of events, the
    inventory has at most one row of any given name; and the Add/Update
    handler, called with a name that the inventory already has, keeps the
    rows and their names as they are (no row is appended), makes the row
    of that name hold exactly the submitted quantity, unit cost, selling
    price and timestamp, and leaves the row of every other name alone. *)
Theorem inventory_upsert :
  (forall es name,
      (List.length (filter (fun r => String.eqb (i_Item r) name)
                      (inventory (run es empty_session))) <= 1)%nat)
  /\
  (forall now name quantity unit_cost selling_price s,
      nonempty name = true -> (0 <= quantity)%Z ->
      0 <= unit_cost -> 0 <= selling_price ->
      item_in name (inventory s) = true ->
      let s' := snd (submit_inventory now name quantity unit_cost selling_price s) in
      map i_Item (inventory s') = map i_Item (inventory s)
      /\ item_row_of name (inventory s')
         = Some (mkItem name quantity unit_cost selling_price now)
      /\ forall other, other <> name ->
           item_row_of other (inventory s') = item_row_of other (inventory s)).
Proof.
  split.
  - intros es name. apply nodup_at_most_one.
    apply run_inventory_nodup. simpl. constructor.
  - intros now name quantity unit_cost selling_price s Hname Hq Hc Hp Hin s'.
    subst s'. unfold submit_inventory.
    apply Z.leb_le in Hq. apply Qle_bool_iff in Hc. apply Qle_bool_iff in Hp.
    rewrite Hname, Hq, Hc, Hp, Hin. simpl andb. cbv iota.
    pose proof (item_lookup name (inventory s)) as L.
    destruct (item_row_of name (inventory s)) as [row|] eqn:Hrow.
    + destruct L as [_ [idx [Hi Hn]]]. rewrite Hi. simpl.
      split; [apply update_at_names; reflexivity|].
      split.
      * rewrite (update_at_lookup _ name name) by (reflexivity || exact Hi).
        rewrite String.eqb_refl, Hrow. simpl. unfold restock.
        unfold item_row_of in Hrow. apply find_some in Hrow.
        destruct Hrow as [_ E]. apply String.eqb_eq in E. rewrite E. reflexivity.
      * intros other Hne.
        rewrite (update_at_lookup _ name other) by (reflexivity || exact Hi).
        apply String.eqb_neq in Hne. rewrite Hne. reflexivity.
    + destruct L as [Hin' _]. congruence.
Qed.

(** ** The depreciation run *)

Lemma depreciation_posted_iff y gl :
  depreciation_posted y gl = true
  <-> exists e, In e gl /\ gl_Account e = "Depreciation Expense"
                /\ year (gl_Date e) = y.
Proof.
  unfold depreciation_posted. rewrite existsb_exists.
  split; intros [e [Hin H]]; exists e; (split; [exact Hin|]).
  - apply andb_prop in H. destruct H as [Ha Hy].
    apply String.eqb_eq in Ha. apply Z.eqb_eq in Hy. split; assumption.
  - destruct H as [Ha Hy]. rewrite Ha, Hy, Z.eqb_refl. reflexivity.
Qed.

(** C4.  The annual depreciation run.
    - If the ledger already holds a Depreciation Expense entry dated in
      the year of the as-of date, the run answers with a warning and
      returns the session it was given: the ledger and every accumulated
      depreciation are as before.
    - If the register of fixed assets is empty, the run answers with the
      warning "No fixed assets to depreciate." and changes nothing.
    - Otherwise the run succeeds, appends to the ledger the entries of
      every asset in register order and replaces every asset by its
      depreciated row; the other frames are as before.
    - An asset of useful life > 0 contributes exactly one pair, a
      Depreciation Expense debit and an Accumulated Depreciation credit
      of (cost - salvage) / useful life, and that amount is added to its
      accumulated depreciation; an asset of useful life <= 0 contributes
      nothing and is left as it is.
    - A second run in the year of a run that posted for at least one
      asset answers with a warning and changes nothing. *)
Theorem depreciation_once_a_year :
  forall d s,
    ((exists e, In e (general_ledger s)
                /\ gl_Account e = "Depreciation Expense"
                /\ year (gl_Date e) = year d) ->
     exists msg, calculate_and_post_depreciation d s = ((warning, msg), s))
    /\
    (fixed_assets s = [] ->
     calculate_and_post_depreciation d s
     = ((warning, "No fixed assets to depreciate."), s))
    /\
    (fixed_assets s <> [] ->
     (forall e, In e (general_ledger s) ->
                gl_Account e = "Depreciation Expense" ->
                year (gl_Date e) <> year d) ->
     exists msg,
       calculate_and_post_depreciation d s
       = ((success, msg),
          mkSession (receivables s) (payables s) (inventory s)
            (map depreciated (fixed_assets s))
            (general_ledger s ++ flat_map (depreciation_entries d) (fixed_assets s))))
    /\
    (forall row,
        (0 < a_Useful_Life row)%Z ->
        depreciation_entries d row
        = [ mkGL d "Depreciation Expense"
              ((a_Cost row - a_Salvage_Value row) / inject_Z (a_Useful_Life row)) 0
              ("Annual depreciation for " ++ a_Asset_Name row)%string;
            mkGL d "Accumulated Depreciation" 0
              ((a_Cost row - a_Salvage_Value row) / inject_Z (a_Useful_Life row))
              ("Annual depreciation for " ++ a_Asset_Name row)%string ]
        /\ a_Accumulated_Depreciation (depreciated row)
           = a_Accumulated_Depreciation row
             + (a_Cost row - a_Salvage_Value row) / inject_Z (a_Useful_Life row))
    /\
    (forall row,
        (a_Useful_Life row <= 0)%Z ->
        depreciation_entries d row = [] /\ depreciated row = row)
    /\
    (forall d',
        year d' = year d ->
        fst (fst (calculate_and_post_depreciation d s)) = success ->
        (exists row, In row (fixed_assets s) /\ (0 < a_Useful_Life row)%Z) ->
        let s1 := snd (calculate_and_post_depreciation d s) in
        exists msg, calculate_and_post_depreciation d' s1 = ((warning, msg), s1)).
Proof.
  intros d s.
  assert (Guard : forall d0 s0,
             depreciation_posted (year d0) (general_ledger s0) = true ->
             exists msg, calculate_and_post_depreciation d0 s0 = ((warning, msg), s0)).
  { intros d0 s0 H. unfold calculate_and_post_depreciation.
    destruct (fixed_assets s0); [eexists; reflexivity|].
    rewrite H. eexists; reflexivity. }
  split; [|split; [|split; [|split; [|split]]]].
  - intros H. apply Guard. apply depreciation_posted_iff. exact H.
  - intros H. unfold calculate_and_post_depreciation. rewrite H. reflexivity.
  - intros Hfa Hnone. unfold calculate_and_post_depreciation.
    destruct (fixed_assets s) as [|r rows] eqn:E; [congruence|].
    destruct (depreciation_posted (year d) (general_ledger s)) eqn:P.
    + apply depreciation_posted_iff in P. destruct P as [e [Hin [Ha Hy]]].
      exfalso. exact (Hnone e Hin Ha Hy).
    + rewrite <- E, depreciation_loop. eexists; reflexivity.
  - intros row Hlife. apply Z.ltb_lt in Hlife.
    unfold depreciation_entries, depreciated. rewrite Hlife.
    split; reflexivity.
  - intros row Hlife. apply Z.ltb_ge in Hlife.
    unfold depreciation_entries, depreciated. rewrite Hlife.
    split; reflexivity.
  - intros d' Hy Hok [row [Hin Hlife]] s1. apply Guard.
    subst s1. revert Hok. unfold calculate_and_post_depreciation.
    destruct (fixed_assets s) as [|r rows] eqn:E; [discriminate|].
    destruct (depreciation_posted (year d) (general_ledger s)); [discriminate|].
    intros _. rewrite <- E, depreciation_loop. simpl.
    apply depreciation_posted_iff.
    exists (mkGL d "Depreciation Expense" (annual_depreciation row) 0
              ("Annual depreciation for " ++ a_Asset_Name row)%string).
    split; [|split; [reflexivity | symmetry; exact Hy]].
    apply in_or_app. right. apply in_flat_map. exists row.
    split; [rewrite E; exact Hin|].
    unfold depreciation_entries. apply Z.ltb_lt in Hlife. rewrite Hlife.
    left. reflexivity.
Qed.

(** ** Accumulated depreciation over time *)

Lemma handle_fixed_assets e s :
  if is_depreciation_run e (fst (fst (handle e s))) then
    fixed_assets (snd (handle e s)) = map depreciated (fixed_assets s)
  else
    fixed_assets (snd (handle e s)) = fixed_assets s
    \/ exists row, fixed_assets (snd (handle e s)) = fixed_assets s ++ [row].
Proof.
  destruct e; simpl handle.
  - unfold submit_receivable, add_receivable_record.
    destruct (nonempty customer && Qlt_bool 0 amount); [|left; reflexivity].
    destruct (String.eqb record_type "Cash"); left; reflexivity.
  - unfold submit_payable.
    destruct (nonempty vendor_category && Qlt_bool 0 amount); left; reflexivity.
  - unfold submit_inventory.
    destruct (nonempty item_name && (0 <=? quantity)%Z && Qle_bool 0 unit_cost
              && Qle_bool 0 selling_price); [|left; reflexivity].
    destruct (item_in item_name (inventory s)); [|left; reflexivity].
    destruct (item_index item_name (inventory s)); left; reflexivity.
  - unfold submit_asset.
    destruct (nonempty asset_name && Qlt_bool 0 cost && (0 <? useful_life)%Z
              && nonempty asset_category && nonempty asset_location);
      [|left; reflexivity].
    right. eexists. reflexivity.
  - unfold calculate_and_post_depreciation.
    destruct (fixed_assets s) as [|r rows] eqn:Hfa; [left; simpl; exact Hfa|].
    destruct (depreciation_posted (year today) (general_ledger s));
      [left; simpl; exact Hfa|].
    rewrite <- Hfa, depreciation_loop. reflexivity.
  - unfold add_sale_record.
    destruct (negb (item_in item (inventory s))); [left; reflexivity|].
    destruct (item_index item (inventory s)) as [idx|]; [|left; reflexivity].
    destruct (nth_error (inventory s) idx) as [item_row|]; [|left; reflexivity].
    destruct (i_Quantity item_row <? quantity)%Z; [left; reflexivity|].
    destruct (String.eqb sale_type "Cash"); left; reflexivity.
Qed.

Lemma annual_depreciation_nonneg row :
  a_Salvage_Value row <= a_Cost row -> (0 < a_Useful_Life row)%Z ->
  0 <= annual_depreciation row.
Proof.
  intros Hs Hl. unfold annual_depreciation.
  apply Qle_shift_div_l.
  - change 0 with (inject_Z 0). rewrite <- Zlt_Qlt. exact Hl.
  - lra.
Qed.

Lemma asset_at_step k cost salvage life a e s :
  salvage <= cost -> (0 < life)%Z ->
  asset_at k cost salvage life a s ->
  exists a',
    asset_at k cost salvage life a' (snd (handle e s))
    /\ a <= a'
    /\ a' == a + (if is_depreciation_run e (fst (fst (handle e s)))
                  then (cost - salvage) / inject_Z life else 0).
Proof.
  intros Hs Hl [row [Hk [Hc [Hv [Hu [Ha Hpos]]]]]].
  pose proof (handle_fixed_assets e s) as H.
  destruct (is_depreciation_run e (fst (fst (handle e s)))).
  - assert (Hamt : 0 <= annual_depreciation row).
    { apply annual_depreciation_nonneg; [rewrite Hc, Hv | rewrite Hu]; assumption. }
    exists (a + annual_depreciation row).
    split; [|split].
    + exists (accumulate (annual_depreciation row) row).
      rewrite H, nth_error_map, Hk.
      assert (D : depreciated row = accumulate (annual_depreciation row) row).
      { unfold depreciated. apply Z.ltb_lt in Hl. rewrite Hu, Hl. reflexivity. }
      set (amt := annual_depreciation row) in *. simpl.
      rewrite D, Ha. repeat split; try assumption. lra.
    + lra.
    + unfold annual_depreciation. rewrite Hc, Hv, Hu. reflexivity.
  - exists a. split; [|split; lra].
    exists row. repeat split; try assumption.
    destruct H as [H | [new H]]; rewrite H; [exact Hk|].
    rewrite nth_error_app1; [exact Hk|].
    apply nth_error_Some. congruence.
Qed.

Lemma asset_at_run k cost salvage life es :
  salvage <= cost -> (0 < life)%Z ->
  forall a s, asset_at k cost salvage life a s ->
              exists a', asset_at k cost salvage life a' (run es s).
Proof.
  intros Hs Hl. induction es as [|e es IH]; intros a s H.
  - exists a. exact H.
  - destruct (asset_at_step k cost salvage life a e s Hs Hl H) as [a1 [H1 _]].
    change (run (e :: es) s) with (run es (snd (handle e s))).
    exact (IH a1 _ H1).
Qed.

Lemma asset_at_accumulated k cost salvage life a s :
  asset_at k cost salvage life a s -> accumulated_at k s = Some a /\ 0 <= a.
Proof.
  intros [row [Hk [_ [_ [_ [Ha Hpos]]]]]].
  unfold accumulated_at. rewrite Hk. simpl. rewrite Ha. split; [reflexivity | exact Hpos].
Qed.

(** C6, as the code has it: with the further precondition that the salvage
    value does not exceed the cost.  An asset acquired with cost > 0,
    0 <= salvage <= cost and useful life > 0 enters the register with
    accumulated depreciation 0; after any sequence of events its
    accumulated depreciation [a] is >= 0, and one more event takes it to
    an [a'] >= [a], which is [a] + (cost - salvage) / useful life when the
    event is a depreciation run that succeeds and [a] otherwise. *)
Theorem accumulated_depreciation_monotone :
  forall name category location d cost salvage life s es e,
    nonempty name = true -> nonempty category = true -> nonempty location = true ->
    0 < cost -> 0 <= salvage -> salvage <= cost -> (0 < life)%Z ->
    let k := List.length (fixed_assets s) in
    let s0 := snd (submit_asset name category location d cost salvage life s) in
    let s1 := run es s0 in
    let s2 := snd (handle e s1) in
    accumulated_at k s0 = Some 0
    /\ exists a a',
         accumulated_at k s1 = Some a /\ accumulated_at k s2 = Some a'
         /\ 0 <= a /\ a <= a'
         /\ a' == a + (if is_depreciation_run e (fst (fst (handle e s1)))
                       then (cost - salvage) / inject_Z life else 0).
Proof.
  intros name category location d cost salvage life s es e
         Hn Hc Hl Hcost Hsalv Hle Hlife k s0 s1 s2.
  assert (H0 : asset_at k cost salvage life 0 s0).
  { subst s0 k. unfold submit_asset.
    unfold Qlt_bool.
    assert (Qle_bool cost 0 = false) as ->.
    { destruct (Qle_bool cost 0) eqn:E; [|reflexivity].
      apply Qle_bool_iff in E. lra. }
    apply Z.ltb_lt in Hlife. rewrite Hn, Hc, Hl, Hlife.
    unfold asset_at. simpl.
    eexists. rewrite nth_error_app2, Nat.sub_diag by lia. simpl.
    repeat split. lra. }
  split; [exact (proj1 (asset_at_accumulated _ _ _ _ _ _ H0))|].
  destruct (asset_at_run k cost salvage life es Hle Hlife 0 s0 H0) as [a H1].
  fold s1 in H1.
  destruct (asset_at_step k cost salvage life a e s1 Hle Hlife H1) as [a' [H2 [Hmono Hadd]]].
  fold s2 in H2.
  exists a, a'.
  destruct (asset_at_accumulated _ _ _ _ _ _ H1) as [E1 P1].
  destruct (asset_at_accumulated _ _ _ _ _ _ H2) as [E2 _].
  repeat split; assumption.
Qed.

(** ** The income statement *)

(** C8, as the code has it.  On the empty ledger the income statement has
    no rows.  On any other ledger it has six rows, in this order: Sales
    Revenue, the sum of the credits to Sales Revenue; Less: Cost of Goods
    Sold, minus the sum of the debits to Cost of Goods Sold; Gross Profit,
    revenue minus COGS; Less: Operating Expenses, minus the sum of the
    debits to Expenses; Less: Depreciation Expense, minus the sum of the
    debits to Depreciation Expense; Net Income (Loss), gross profit minus
    operating expenses minus depreciation expense.  After Scenario 2 the
    Widget row holds 7 units, the ledger has gained Cash 24 debit, Sales
    Revenue 24 credit, Cost of Goods Sold 15 debit and Inventory 15 credit,
    and Gross Profit is 9. *)
Theorem income_statement_lines :
  generate_income_statement [] = []
  /\
  (forall e gl',
      let gl := e :: gl' in
      let revenue := account_sum gl_Credit "Sales Revenue" gl in
      let cogs := account_sum gl_Debit "Cost of Goods Sold" gl in
      let expenses := account_sum gl_Debit "Expenses" gl in
      let depreciation_expense := account_sum gl_Debit "Depreciation Expense" gl in
      exists net_income,
        generate_income_statement gl
        = [ mkLine "Sales Revenue" revenue;
            mkLine "Less: Cost of Goods Sold" (- cogs);
            mkLine "Gross Profit" (revenue - cogs);
            mkLine "Less: Operating Expenses" (- expenses);
            mkLine "Less: Depreciation Expense" (- depreciation_expense);
            mkLine "Net Income (Loss)" net_income ]
        /\ net_income == (revenue - cogs) - expenses - depreciation_expense)
  /\
  (map i_Quantity (inventory scenario2) = [7%Z]
   /\ map posting (general_ledger scenario2)
      = [ ("Cash", 24, 0, "Cash Sale of 3 units of Widget to Bob");
          ("Sales Revenue", 0, 24, "Sale of 3 units of Widget to Bob");
          ("Cost of Goods Sold", 15, 0, "COGS for 3 units of Widget sold to Bob");
          ("Inventory", 0, 15,
           "Inventory reduction for 3 units of Widget sold to Bob") ]
   /\ exists gross_profit,
        nth_error (generate_income_statement (general_ledger scenario2)) 2
        = Some (mkLine "Gross Profit" gross_profit)
        /\ gross_profit == 9).
Proof.
  split; [reflexivity|]. split.
  - intros e gl' gl revenue cogs expenses depreciation_expense.
    eexists. split; [reflexivity|].
    subst revenue cogs expenses depreciation_expense. ring.
  - split; [reflexivity|]. split; [vm_compute; reflexivity|].
    eexists. split; [vm_compute; reflexivity|]. vm_compute. reflexivity.
Qed.

(** C8 as worded fails twice: the empty ledger yields no rows at all, and
    the cost and expense rows carry the negated sums (here -15 for a cost
    of goods sold of 15). *)
Lemma income_statement_not_as_worded :
  map l_Amount (generate_income_statement []) <> income_statement_as_worded []
  /\ ~ Forall2 Qeq
         (map l_Amount (generate_income_statement (general_ledger scenario2)))
         (income_statement_as_worded (general_ledger scenario2)).
Proof.
  split.
  - discriminate.
  - intros H. vm_compute in H.
    inversion_clear H as [|a b la lb _ H1].
    inversion_clear H1 as [|a b la lb H2 _].
    discriminate H2.
Qed.

(** ** The cash flow statement *)

(** C5 on the code.  The acquisition of a truck of cost 1200 succeeds and
    credits Cash with 1200 under the memo "Cash payment for Truck"; the
    word "Acquisition" is in the memo of the Fixed Assets entry only, so
    the cash flow statement reports 0 for Net Cash from Investing
    Activities, not -1200.  The same holds for a truck of any cost [K]:
    whenever the form accepts it, the statement that follows reports 0. *)
Theorem acquisition_cash_not_investing :
  (let s := run [truck_acquired] empty_session in
   fst (fst (handle truck_acquired empty_session)) = success
   /\ map posting (general_ledger s)
      = [ ("Fixed Assets", 1200, 0,
           "Acquisition of Truck (YOUR_COMPANY-VEHICLE-2024-HQ)");
          ("Cash", 0, 1200, "Cash payment for Truck") ]
   /\ exists investing,
        nth_error (generate_cash_flow_statement (general_ledger s)) 1
        = Some (mkCF "Net Cash from Investing Activities" investing)
        /\ investing == 0 /\ ~ investing == - 1200)
  /\
  (forall d K salvage life,
      let r := submit_asset "Truck" "Vehicle" "HQ" d K salvage life empty_session in
      fst (fst r) = error
      \/ (fst (fst r) = success
          /\ exists investing,
               nth_error (generate_cash_flow_statement (general_ledger (snd r))) 1
               = Some (mkCF "Net Cash from Investing Activities" investing)
               /\ investing == 0)).
Proof.
  split.
  - split; [reflexivity|]. split; [vm_compute; reflexivity|].
    eexists. split; [vm_compute; reflexivity|].
    split; [reflexivity | discriminate].
  - intros d K salvage life r. subst r. unfold submit_asset.
    destruct (nonempty "Truck" && Qlt_bool 0 K && (0 <? life)%Z
              && nonempty "Vehicle" && nonempty "HQ");
      [right | left; reflexivity].
    split; [reflexivity|].
    eexists. split; [reflexivity|].
    unfold cash_sum. cbn [general_ledger snd post_to_gl set_general_ledger
                          set_fixed_assets empty_session app filter gl_Account
                          gl_Description gl_Credit String.eqb Ascii.eqb Bool.eqb
                          andb].
    replace (contains "Acquisition" ("Cash payment for " ++ "Truck")) with false
      by reflexivity.
    rewrite andb_false_r. reflexivity.
Qed.

(** ** Ratios *)

Lemma truthy_zero x : x == 0 -> truthy x = false.
Proof.
  intros H. unfold truthy. apply Qeq_bool_iff in H. rewrite H. reflexivity.
Qed.

Ltac ratio_lookup :=
  cbv beta iota zeta delta
    [calculate_ratios ratio_of String.eqb Ascii.eqb Bool.eqb].

(** C9.  [calculate_ratios] never divides by zero but answers with the
    fallback: both profit margins are 0 when revenue is 0; the current
    and the quick ratio are infinite when Accounts Payable (the current
    liabilities) is 0; debt-to-equity is infinite when the owner's equity
    is 0; the receivable turnover in days is 0 when revenue or the
    receivables are 0.  On the snapshots of Scenario 5 the gross profit
    margin is 0.6 and the current ratio is infinite. *)
Theorem ratio_fallbacks :
  forall is_df bs_df,
    let ratios := calculate_ratios is_df bs_df in
    (item_sum "Sales Revenue" is_df == 0 ->
     ratio_of "Gross Profit Margin" ratios = Some (Finite 0)
     /\ ratio_of "Net Profit Margin" ratios = Some (Finite 0))
    /\
    (item_sum "Accounts Payable" bs_df == 0 ->
     ratio_of "Current Ratio" ratios = Some Infinity
     /\ ratio_of "Quick Ratio" ratios = Some Infinity)
    /\
    (item_sum "Owner's Equity (Simplified)" bs_df == 0 ->
     ratio_of "Debt-to-Equity Ratio" ratios = Some Infinity)
    /\
    (item_sum "Sales Revenue" is_df == 0
     \/ item_sum "Accounts Receivable" bs_df == 0 ->
     ratio_of "Accounts Receivable Turnover (Days)" ratios = Some (Finite 0))
    /\
    (exists margin,
        ratio_of "Gross Profit Margin" (calculate_ratios scenario5_is scenario5_bs)
        = Some (Finite margin)
        /\ margin == 0.6)
    /\ ratio_of "Current Ratio" (calculate_ratios scenario5_is scenario5_bs)
       = Some Infinity.
Proof.
  intros is_df bs_df ratios. subst ratios.
  split; [|split; [|split; [|split; [|split]]]].
  - intros H. ratio_lookup. rewrite (truthy_zero _ H). split; reflexivity.
  - intros H. ratio_lookup. rewrite (truthy_zero _ H). split; reflexivity.
  - intros H. ratio_lookup. rewrite (truthy_zero _ H). reflexivity.
  - intros [H|H]; ratio_lookup; rewrite (truthy_zero _ H);
      [rewrite andb_false_r | rewrite andb_false_l]; reflexivity.
  - eexists. split; [vm_compute; reflexivity|]. vm_compute. reflexivity.
  - vm_compute. reflexivity.
Qed.

(** ** The forecast *)

Lemma forecast_year_gap this_year g c o i p :
  let '(_, row, p') := forecast_year this_year g c o i p in
  fb_Total_Assets row - fb_Total_Liabilities_Equity row == gap_of p
  /\ gap_of p' == gap_of p.
Proof.
  unfold forecast_year, gap_of. cbv zeta. simpl.
  set (rev := prev_revenue p * (1 + g / 100)).
  set (ar := rev * 0.1).
  set (cogs := rev * (c / 100)).
  set (inv := cogs * 0.05).
  set (opex := rev * (o / 100)).
  split; ring.
Qed.

Lemma forecast_loop_gap this_year g c o n :
  forall i p,
    let (_, bs_rows) := forecast_loop this_year g c o n i p in
    List.length bs_rows = n
    /\ Forall (fun row => fb_Total_Assets row - fb_Total_Liabilities_Equity row
                          == gap_of p) bs_rows.
Proof.
  induction n as [|n IH]; intros i p; cbn [forecast_loop].
  - split; [reflexivity | constructor].
  - pose proof (forecast_year_gap this_year g c o i p) as Hy.
    destruct (forecast_year this_year g c o i p) as [[is_row bs_row] p'].
    specialize (IH (i + 1)%Z p').
    destruct (forecast_loop this_year g c o n (i + 1)%Z p') as [is_rows bs_rows].
    destruct Hy as [Hrow Hgap]. destruct IH as [Hlen Hall].
    split; [simpl; rewrite Hlen; reflexivity|].
    constructor; [exact Hrow|].
    eapply Forall_impl; [|exact Hall].
    intros row Hr. simpl in Hr. rewrite Hr. exact Hgap.
Qed.

Lemma item_sum_absent item df : has_item item df = false -> item_sum item df = 0.
Proof.
  unfold has_item, item_sum. intros H.
  assert (E : filter (fun r => String.eqb (l_Item r) item) df = []).
  { induction df as [|r df IH]; simpl in *; [reflexivity|].
    destruct (String.eqb (l_Item r) item); simpl in H; [discriminate|].
    exact (IH H). }
  rewrite E. reflexivity.
Qed.

Lemma long_term_debt_sum df :
  (if has_item "Long-term Debt" df then item_sum "Long-term Debt" df else 0)
  = item_sum "Long-term Debt" df.
Proof.
  destruct (has_item "Long-term Debt" df) eqn:E; [reflexivity|].
  symmetry. apply item_sum_absent. exact E.
Qed.

(** C10.  [forecast_financials] returns no forecast exactly when one of
    the two snapshots is empty.  Otherwise it returns one balance-sheet
    row per forecast year, and in every row Total Assets minus Total
    Liabilities & Equity equals (Cash + Accounts Receivable + Inventory +
    Fixed Assets (Net)) minus (Accounts Payable + Long-term Debt + Owner's
    Equity) of the uploaded balance sheet; so if the uploaded balance
    sheet balances, every forecast year balances. *)
Theorem forecast_preserves_gap :
  forall this_year revenue_growth cogs_pct_revenue op_exp_pct_revenue
         is_df bs_df years,
    let gap :=
      (item_sum "Cash" bs_df + item_sum "Accounts Receivable" bs_df
       + item_sum "Inventory" bs_df + item_sum "Fixed Assets (Net)" bs_df)
      - (item_sum "Accounts Payable" bs_df + item_sum "Long-term Debt" bs_df
         + item_sum "Owner's Equity (Simplified)" bs_df) in
    match forecast_financials this_year revenue_growth cogs_pct_revenue
            op_exp_pct_revenue is_df bs_df years with
    | None => is_df = [] \/ bs_df = []
    | Some (_, bs_rows) =>
        is_df <> [] /\ bs_df <> []
        /\ List.length bs_rows = Z.to_nat years
        /\ Forall (fun row => fb_Total_Assets row - fb_Total_Liabilities_Equity row
                              == gap) bs_rows
        /\ (gap == 0 ->
            Forall (fun row => fb_Total_Assets row
                               == fb_Total_Liabilities_Equity row) bs_rows)
    end.
Proof.
  intros this_year g c o is_df bs_df years gap.
  unfold forecast_financials.
  destruct is_df as [|l1 is_df]; [left; reflexivity|].
  destruct bs_df as [|l2 bs_df]; [right; reflexivity|].
  cbv beta iota zeta. rewrite long_term_debt_sum.
  match goal with
  | |- context [forecast_loop _ _ _ _ ?n ?i ?p] =>
      pose proof (forecast_loop_gap this_year g c o n i p) as L;
      destruct (forecast_loop this_year g c o n i p) as [is_rows bs_rows]
  end.
  destruct L as [Hlen Hgap]. change (gap_of _) with gap in Hgap.
  split; [discriminate|]. split; [discriminate|].
  split; [exact Hlen|]. split; [exact Hgap|].
  intros Hz. eapply Forall_impl; [|exact Hgap].
  intros row Hr. simpl in Hr. lra.
Qed.

(** * The theorems at concrete inputs *)

(** Scenario 3: twenty Widgets are asked for when seven are left; and a
    Gadget, which was never stocked, is asked for. *)
Lemma rejected_sale_witness :
  add_sale_record "2024-03-02 09:00:00" (mkDate 2024 3 2) "Widget" 20 "Bob" "Cash"
    scenario2
  = ((error, "Not enough stock. Only 7 units available."), scenario2)
  /\ add_sale_record "2024-03-02 09:00:00" (mkDate 2024 3 2) "Gadget" 1 "Bob" "Cash"
       scenario2
     = ((error, "Item not found in inventory."), scenario2).
Proof.
  split.
  - apply (proj1 (rejected_sale_changes_nothing "2024-03-02 09:00:00"
                    (mkDate 2024 3 2) "Widget" 20 "Bob" "Cash" scenario2)
             (mkItem "Widget" 7 5 8 "2024-03-01 10:00:00")).
    + reflexivity.
    + reflexivity.
  - apply (proj2 (rejected_sale_changes_nothing "2024-03-02 09:00:00"
                    (mkDate 2024 3 2) "Gadget" 1 "Bob" "Cash" scenario2)).
    reflexivity.
Defined.

(** Scenario 4: the first run of 2024 succeeds and takes the accumulated
    depreciation of the truck to 200; a second run in 2024 only warns; a
    run on an empty register only warns. *)
Lemma depreciation_once_a_year_witness :
  (exists msg,
      calculate_and_post_depreciation (mkDate 2024 12 31) scenario4
      = ((success, msg),
         mkSession [] [] []
           (map depreciated (fixed_assets scenario4))
           (general_ledger scenario4
            ++ flat_map (depreciation_entries (mkDate 2024 12 31))
                 (fixed_assets scenario4))))
  /\ Forall2 Qeq (map a_Accumulated_Depreciation (fixed_assets scenario4_depreciated))
       [200]
  /\ (exists msg,
         calculate_and_post_depreciation (mkDate 2024 6 30) scenario4_depreciated
         = ((warning, msg), scenario4_depreciated))
  /\ (exists msg,
         calculate_and_post_depreciation (mkDate 2024 12 31) scenario4_depreciated
         = ((warning, msg), scenario4_depreciated))
  /\ calculate_and_post_depreciation (mkDate 2024 12 31) empty_session
     = ((warning, "No fixed assets to depreciate."), empty_session).
Proof.
  pose proof (depreciation_once_a_year (mkDate 2024 12 31) scenario4)
    as [_ [_ [First [_ [_ Second]]]]].
  pose proof (depreciation_once_a_year (mkDate 2024 6 30) scenario4_depreciated)
    as [Guard _].
  pose proof (depreciation_once_a_year (mkDate 2024 12 31) empty_session)
    as [_ [Empty _]].
  split; [|split; [|split; [|split]]].
  - apply First.
    + discriminate.
    + intros e [<-|[<-|[]]] Ha; discriminate Ha.
  - repeat constructor.
  - apply Guard.
    exists (mkGL (mkDate 2024 12 31) "Depreciation Expense" ((1200 - 200) / inject_Z 5) 0
              "Annual depreciation for Truck").
    split; [right; right; left; reflexivity | split; reflexivity].
  - apply (Second (mkDate 2024 12 31)).
    + reflexivity.
    + reflexivity.
    + exists (mkAsset "YOUR_COMPANY-VEHICLE-2024-HQ" "Truck" "Vehicle" "HQ"
                (mkDate 2024 1 15) 1200 200 5 0).
      split; [left; reflexivity | reflexivity].
  - apply Empty. reflexivity.
Defined.

(** The truck over the depreciation run of 2024: from 0 to 0 + 200. *)
Lemma accumulated_depreciation_monotone_witness :
  accumulated_at 0 scenario4 = Some 0
  /\ exists a a',
       accumulated_at 0 scenario4 = Some a
       /\ accumulated_at 0 scenario4_depreciated = Some a'
       /\ 0 <= a /\ a <= a' /\ a' == a + (1200 - 200) / inject_Z 5.
Proof.
  apply (accumulated_depreciation_monotone "Truck" "Vehicle" "HQ" (mkDate 2024 1 15)
           1200 200 5 empty_session [] (Depreciation (mkDate 2024 12 31))).
  - reflexivity.
  - reflexivity.
  - reflexivity.
  - reflexivity.
  - discriminate.
  - discriminate.
  - reflexivity.
Defined.

(** C6 as worded fails: a truck of cost 100, salvage value 200 and useful
    life 5 satisfies the preconditions and is accepted by the Add Asset
    form; the depreciation run that follows succeeds and takes its
    accumulated depreciation from 0 to -20. *)
Lemma accumulated_depreciation_can_fall :
  let acquired :=
    Acquisition "Truck" "Vehicle" "HQ" (mkDate 2024 1 15) 100 200 5 in
  let s0 := snd (handle acquired empty_session) in
  let s1 := snd (handle (Depreciation (mkDate 2024 12 31)) s0) in
  (0 < 100 /\ 0 <= 200 /\ (0 < 5)%Z)
  /\ fst (fst (handle acquired empty_session)) = success
  /\ fst (fst (handle (Depreciation (mkDate 2024 12 31)) s0)) = success
  /\ accumulated_at 0 s0 = Some 0
  /\ exists a',
       accumulated_at 0 s1 = Some a'
       /\ a' == - 20 /\ ~ 0 <= a'.
Proof.
  split; [split; [reflexivity | split; [discriminate | reflexivity]]|].
  split; [reflexivity|]. split; [reflexivity|]. split; [reflexivity|].
  eexists. split; [vm_compute; reflexivity|].
  split; [reflexivity|]. intros H. apply H. reflexivity.
Qed.

(** The Widget row (10 units, cost 5, price 8) updated to 4 units, cost 6,
    price 9. *)
Lemma inventory_upsert_witness :
  let s := run [widget_stocked] empty_session in
  let s' := snd (submit_inventory "2024-03-05 08:00:00" "Widget" 4 6 9 s) in
  map i_Item (inventory s') = ["Widget"]
  /\ item_row_of "Widget" (inventory s')
     = Some (mkItem "Widget" 4 6 9 "2024-03-05 08:00:00")
  /\ (List.length (filter (fun r => String.eqb (i_Item r) "Widget")
                     (inventory (run [widget_stocked;
                                      Inventory "2024-03-05 08:00:00" "Widget" 4 6 9]
                                   empty_session))) <= 1)%nat.
Proof.
  intros s s'.
  destruct (proj2 inventory_upsert "2024-03-05 08:00:00" "Widget" 4%Z 6 9 s)
    as [Hnames [Hrow _]].
  - reflexivity.
  - discriminate.
  - discriminate.
  - discriminate.
  - reflexivity.
  - split; [exact Hnames|]. split; [exact Hrow|].
    apply (proj1 inventory_upsert).
Defined.

(** Two empty snapshots: every guarded ratio takes its fallback. *)
Lemma ratio_fallbacks_witness :
  let ratios := calculate_ratios [] [] in
  ratio_of "Gross Profit Margin" ratios = Some (Finite 0)
  /\ ratio_of "Net Profit Margin" ratios = Some (Finite 0)
  /\ ratio_of "Current Ratio" ratios = Some Infinity
  /\ ratio_of "Quick Ratio" ratios = Some Infinity
  /\ ratio_of "Debt-to-Equity Ratio" ratios = Some Infinity
  /\ ratio_of "Accounts Receivable Turnover (Days)" ratios = Some (Finite 0).
Proof.
  intros ratios.
  destruct (ratio_fallbacks [] []) as [Margins [Liquidity [Solvency [Turnover _]]]].
  destruct (Margins (Qeq_refl 0)) as [M1 M2].
  destruct (Liquidity (Qeq_refl 0)) as [L1 L2].
  pose proof (Solvency (Qeq_refl 0)) as S1.
  pose proof (Turnover (or_introl (Qeq_refl 0))) as T1.
  exact (conj M1 (conj M2 (conj L1 (conj L2 (conj S1 T1))))).
Defined.

(** The balance sheet of Scenario 5 balances (1000 on both sides), and so
    do the three years forecast from it at 5% growth, 40% COGS and 30%
    operating expenses. *)
Lemma forecast_preserves_gap_witness :
  match forecast_financials 2024 5 40 30 scenario5_is scenario5_bs 3 with
  | None => False
  | Some (_, bs_rows) =>
      List.length bs_rows = 3%nat
      /\ Forall (fun row => fb_Total_Assets row == fb_Total_Liabilities_Equity row)
           bs_rows
  end.
Proof.
  pose proof (forecast_preserves_gap 2024 5 40 30 scenario5_is scenario5_bs 3) as H.
  cbv zeta in H.
  destruct (forecast_financials 2024 5 40 30 scenario5_is scenario5_bs 3)
    as [[is_rows bs_rows]|].
  - destruct H as [_ [_ [Hlen [_ Hbal]]]].
    split; [exact Hlen|]. apply Hbal. reflexivity.
  - destruct H as [H|H]; discriminate H.
Defined.

(** * Further properties of the program *)

(** ** Stock levels *)

Lemma update_at_Forall {A : Type} (P : A -> Prop) (f : A -> A) :
  forall rows idx r,
    Forall P rows -> nth_error rows idx = Some r -> P (f r) ->
    Forall P (update_at idx f rows).
Proof.
  induction rows as [|x rows IH]; intros [|i] r HP Hn Hf; simpl in *;
    try discriminate.
  - injection Hn as ->. inversion HP; subst. constructor; assumption.
  - inversion HP; subst. constructor; [assumption|]. eapply IH; eassumption.
Qed.

Lemma handle_stock e s :
  Forall stock_ok (inventory s) -> Forall stock_ok (inventory (snd (handle e s))).
Proof.
  intros H. destruct e; simpl handle.
  - unfold submit_receivable, add_receivable_record.
    destruct (nonempty customer && Qlt_bool 0 amount); [|exact H].
    destruct (String.eqb record_type "Cash"); exact H.
  - unfold submit_payable.
    destruct (nonempty vendor_category && Qlt_bool 0 amount); exact H.
  - unfold submit_inventory.
    destruct (nonempty item_name && (0 <=? quantity)%Z && Qle_bool 0 unit_cost
              && Qle_bool 0 selling_price) eqn:G; [|exact H].
    apply andb_prop in G. destruct G as [G Gp].
    apply andb_prop in G. destruct G as [G Gc].
    apply andb_prop in G. destruct G as [_ Gq].
    apply Z.leb_le in Gq. apply Qle_bool_iff in Gc. apply Qle_bool_iff in Gp.
    assert (New : forall n t, stock_ok (mkItem n quantity unit_cost selling_price t)).
    { intros n t. repeat split; assumption. }
    pose proof (item_lookup item_name (inventory s)) as L.
    destruct (item_row_of item_name (inventory s)) as [row|].
    + destruct L as [Hin [idx [Hi Hn]]]. rewrite Hin, Hi. simpl.
      eapply update_at_Forall; [exact H | exact Hn | apply New].
    + destruct L as [Hin _]. rewrite Hin. simpl.
      apply Forall_app. split; [exact H|]. constructor; [apply New | constructor].
  - unfold submit_asset.
    destruct (nonempty asset_name && Qlt_bool 0 cost && (0 <? useful_life)%Z
              && nonempty asset_category && nonempty asset_location); exact H.
  - unfold calculate_and_post_depreciation.
    destruct (fixed_assets s) as [|r rows] eqn:Hfa; [exact H|].
    destruct (depreciation_posted (year today) (general_ledger s)); [exact H|].
    rewrite <- Hfa, depreciation_loop. exact H.
  - unfold add_sale_record.
    destruct (negb (item_in item (inventory s))); [exact H|].
    destruct (item_index item (inventory s)) as [idx|]; [|exact H].
    destruct (nth_error (inventory s) idx) as [item_row|] eqn:Hn; [|exact H].
    destruct (i_Quantity item_row <? quantity)%Z eqn:Hq; [exact H|].
    apply Z.ltb_ge in Hq.
    assert (Sold : Forall stock_ok
                     (update_at idx (sold quantity now) (inventory s))).
    { eapply update_at_Forall; [exact H | exact Hn |].
      pose proof (proj1 (Forall_forall _ _) H item_row (nth_error_In _ _ Hn))
        as [_ [Hc Hp]].
      repeat split; simpl; [lia | exact Hc | exact Hp]. }
    destruct (String.eqb sale_type "Cash"); exact Sold.
Qed.




(** X2.  A sale of no more units than the row of the item holds goes
    through: the row loses exactly the quantity sold and takes the
    timestamp, the rows of the other items and the other frames are as
    before, and the ledger gains four entries: the revenue leg (Cash when
    the sale type is "Cash", Accounts Receivable otherwise) and Sales
    Revenue for quantity x selling price, Cost of Goods Sold and Inventory
    for quantity x unit cost. *)
Theorem accepted_sale :
  forall now d item quantity customer sale_type s row,
    item_row_of item (inventory s) = Some row ->
    (quantity <= i_Quantity row)%Z ->
    let r := add_sale_record now d item quantity customer sale_type s in
    let s' := snd r in
    let units := (str_of_Z quantity ++ " units of " ++ item)%string in
    let revenue := inject_Z quantity * i_Selling_Price row in
    let cogs := inject_Z quantity * i_Unit_Cost row in
    fst r = (success, "Sale recorded successfully and inventory updated!")
    /\ item_row_of item (inventory s')
       = Some (mkItem item (i_Quantity row - quantity) (i_Unit_Cost row)
                 (i_Selling_Price row) now)
    /\ (forall other, other <> item ->
          item_row_of other (inventory s') = item_row_of other (inventory s))
    /\ map i_Item (inventory s') = map i_Item (inventory s)
    /\ receivables s' = receivables s /\ payables s' = payables s
    /\ fixed_assets s' = fixed_assets s
    /\ general_ledger s'
       = general_ledger s
         ++ [ (if String.eqb sale_type "Cash"
               then mkGL d "Cash" revenue 0
                      ("Cash Sale of " ++ units ++ " to " ++ customer)%string
               else mkGL d "Accounts Receivable" revenue 0
                      ("Credit Sale of " ++ units ++ " to " ++ customer)%string);
              mkGL d "Sales Revenue" 0 revenue
                ("Sale of " ++ units ++ " to " ++ customer)%string;
              mkGL d "Cost of Goods Sold" cogs 0
                ("COGS for " ++ units ++ " sold to " ++ customer)%string;
              mkGL d "Inventory" 0 cogs
                ("Inventory reduction for " ++ units ++ " sold to "
                 ++ customer)%string ].
Proof.
  intros now d item quantity customer sale_type s row Hrow Hq r s' units revenue cogs.
  subst r s' units revenue cogs.
  pose proof (item_lookup item (inventory s)) as L. rewrite Hrow in L.
  destruct L as [Hin [idx [Hi Hn]]].
  assert (Hname : i_Item row = item).
  { unfold item_row_of in Hrow. apply find_some in Hrow.
    destruct Hrow as [_ E]. apply String.eqb_eq in E. exact E. }
  unfold add_sale_record. rewrite Hin, Hi, Hn. simpl negb. cbv iota.
  apply Z.ltb_ge in Hq. rewrite Hq. cbv zeta.
  assert (Lk : forall other,
             item_row_of other (update_at idx (sold quantity now) (inventory s))
             = if String.eqb other item
               then option_map (sold quantity now) (item_row_of item (inventory s))
               else item_row_of other (inventory s)).
  { intros other. apply update_at_lookup; [reflexivity | exact Hi]. }
  assert (Nm : map i_Item (update_at idx (sold quantity now) (inventory s))
               = map i_Item (inventory s)).
  { apply update_at_names. reflexivity. }
  destruct (String.eqb sale_type "Cash"); simpl; rewrite <- ?app_assoc; simpl;
    (split; [reflexivity|]);
    (split; [rewrite Lk, String.eqb_refl, Hrow; simpl; unfold sold;
             rewrite Hname; reflexivity|]);
    (split; [intros other Hne; rewrite Lk; apply String.eqb_neq in Hne;
             rewrite Hne; reflexivity|]);
    (split; [exact Nm|]); repeat (split; [reflexivity|]); reflexivity.
Qed.

(** Scenario 2 again: three of the ten Widgets sold for cash. *)
Lemma accepted_sale_witness :
  item_row_of "Widget" (inventory scenario2)
  = Some (mkItem "Widget" (10 - 3) 5 8 "2024-03-01 10:00:00").
Proof.
  exact (proj1 (proj2 (accepted_sale "2024-03-01 10:00:00" (mkDate 2024 3 1) "Widget" 3
                         "Bob" "Cash" (run [widget_stocked] empty_session)
                         (mkItem "Widget" 10 5 8 "2024-03-01 09:00:00")
                         eq_refl ltac:(discriminate)))).
Defined.

(** ** Frames only grow *)

Lemma extends_refl {A : Type} (l : list A) : extends l l.
Proof. exists []. rewrite app_nil_r. reflexivity. Qed.

Lemma extends_trans {A : Type} (a b c : list A) :
  extends a b -> extends b c -> extends a c.
Proof.
  intros [x ->] [y ->]. exists (x ++ y). rewrite app_assoc. reflexivity.
Qed.

Lemma extends_app {A : Type} (l more : list A) : extends l (l ++ more).
Proof. exists more. reflexivity. Qed.

Lemma depreciated_identity row : asset_identity (depreciated row) = asset_identity row.
Proof.
  unfold depreciated. destruct (0 <? a_Useful_Life row)%Z; reflexivity.
Qed.

Lemma handle_grown e s : grown s (snd (handle e s)).
Proof.
  unfold grown. destruct e; simpl handle.
  - unfold submit_receivable, add_receivable_record.
    destruct (nonempty customer && Qlt_bool 0 amount);
      [|repeat split; apply extends_refl].
    destruct (String.eqb record_type "Cash"); simpl; rewrite <- ?app_assoc;
      repeat split; (apply extends_refl || apply extends_app).
  - unfold submit_payable, add_payable_record.
    destruct (nonempty vendor_category && Qlt_bool 0 amount);
      [|repeat split; apply extends_refl].
    simpl; rewrite <- ?app_assoc;
      repeat split; (apply extends_refl || apply extends_app).
  - unfold submit_inventory.
    destruct (nonempty item_name && (0 <=? quantity)%Z && Qle_bool 0 unit_cost
              && Qle_bool 0 selling_price); [|repeat split; apply extends_refl].
    destruct (item_in item_name (inventory s)); [|repeat split; apply extends_refl].
    destruct (item_index item_name (inventory s)); repeat split; apply extends_refl.
  - unfold submit_asset.
    destruct (nonempty asset_name && Qlt_bool 0 cost && (0 <? useful_life)%Z
              && nonempty asset_category && nonempty asset_location);
      [|repeat split; apply extends_refl].
    simpl; rewrite <- ?app_assoc, ?map_app;
      repeat split; (apply extends_refl || apply extends_app).
  - unfold calculate_and_post_depreciation.
    destruct (fixed_assets s) as [|r rows] eqn:Hfa.
    { simpl. rewrite Hfa. repeat split; apply extends_refl. }
    destruct (depreciation_posted (year today) (general_ledger s)).
    { simpl. rewrite Hfa. repeat split; apply extends_refl. }
    rewrite <- Hfa, depreciation_loop. simpl.
    repeat split; try apply extends_refl; try apply extends_app.
    rewrite map_map.
    rewrite (map_ext _ asset_identity depreciated_identity). apply extends_refl.
  - unfold add_sale_record.
    destruct (negb (item_in item (inventory s))); [repeat split; apply extends_refl|].
    destruct (item_index item (inventory s)) as [idx|];
      [|repeat split; apply extends_refl].
    destruct (nth_error (inventory s) idx) as [item_row|];
      [|repeat split; apply extends_refl].
    destruct (i_Quantity item_row <? quantity)%Z;
      [repeat split; apply extends_refl|].
    destruct (String.eqb sale_type "Cash"); simpl; rewrite <- ?app_assoc;
      repeat split; (apply extends_refl || apply extends_app).
Qed.

(** X3.  No event rewrites or removes what is on record: after any
    sequence of events the receivables, the payables and the ledger of the
    session are the old ones with rows added at the end, and so is the
    register of fixed assets up to the accumulated depreciation of its
    rows. *)
Theorem frames_only_grow :
  forall es s,
    (exists more, receivables (run es s) = receivables s ++ more)
    /\ (exists more, payables (run es s) = payables s ++ more)
    /\ (exists more, general_ledger (run es s) = general_ledger s ++ more)
    /\ (exists more,
          map asset_identity (fixed_assets (run es s))
          = map asset_identity (fixed_assets s) ++ more).
Proof.
  induction es as [|e es IH]; intros s.
  - repeat split; apply extends_refl.
  - change (run (e :: es) s) with (run es (snd (handle e s))).
    destruct (handle_grown e s) as [R1 [P1 [G1 F1]]].
    destruct (IH (snd (handle e s))) as [R2 [P2 [G2 F2]]].
    repeat split; eapply extends_trans; eassumption.
Qed.

(** ** Which accounts are posted, and on which side *)

Ltac side :=
  unfold one_sided, debit_accounts, credit_accounts; simpl; tauto.

Ltac sided :=
  simpl; rewrite <- ?app_assoc; simpl;
  eexists; split; [reflexivity | repeat constructor; side].

Ltac nothing_sided :=
  exists []; rewrite app_nil_r; split; [reflexivity | constructor].

Lemma depreciation_batch_sided d rows :
  Forall one_sided (flat_map (depreciation_entries d) rows).
Proof.
  induction rows as [|r rows IH]; simpl; [constructor|].
  apply Forall_app. split; [|exact IH].
  unfold depreciation_entries. destruct (0 <? a_Useful_Life r)%Z;
    repeat constructor; side.
Qed.

Lemma handle_sided e s :
  exists batch,
    general_ledger (snd (handle e s)) = general_ledger s ++ batch
    /\ Forall one_sided batch.
Proof.
  destruct e; simpl handle.
  - unfold submit_receivable, add_receivable_record.
    destruct (nonempty customer && Qlt_bool 0 amount); [|nothing_sided].
    destruct (String.eqb record_type "Cash"); sided.
  - unfold submit_payable, add_payable_record.
    destruct (nonempty vendor_category && Qlt_bool 0 amount); [|nothing_sided].
    sided.
  - unfold submit_inventory.
    destruct (nonempty item_name && (0 <=? quantity)%Z && Qle_bool 0 unit_cost
              && Qle_bool 0 selling_price); [|nothing_sided].
    destruct (item_in item_name (inventory s)); [|nothing_sided].
    destruct (item_index item_name (inventory s)); nothing_sided.
  - unfold submit_asset.
    destruct (nonempty asset_name && Qlt_bool 0 cost && (0 <? useful_life)%Z
              && nonempty asset_category && nonempty asset_location);
      [|nothing_sided].
    sided.
  - unfold calculate_and_post_depreciation.
    destruct (fixed_assets s) as [|r rows] eqn:Hfa; [nothing_sided|].
    destruct (depreciation_posted (year today) (general_ledger s)); [nothing_sided|].
    rewrite <- Hfa, depreciation_loop. simpl.
    eexists. split; [reflexivity|]. apply depreciation_batch_sided.
  - unfold add_sale_record.
    destruct (negb (item_in item (inventory s))); [nothing_sided|].
    destruct (item_index item (inventory s)) as [idx|]; [|nothing_sided].
    destruct (nth_error (inventory s) idx) as [item_row|]; [|nothing_sided].
    destruct (i_Quantity item_row <? quantity)%Z; [nothing_sided|].
    destruct (String.eqb sale_type "Cash"); sided.
Qed.

Lemma run_sided es :
  forall s, Forall one_sided (general_ledger s) ->
            Forall one_sided (general_ledger (run es s)).
Proof.
  induction es as [|e es IH]; intros s H; [exact H|].
  change (run (e :: es) s) with (run es (snd (handle e s))).
  apply IH. destruct (handle_sided e s) as [b [E Hb]].
  rewrite E. apply Forall_app. split; assumption.
Qed.

Lemma account_sum_zero col account gl :
  (forall e, In e gl -> gl_Account e = account -> col e = 0) ->
  account_sum col account gl == 0.
Proof.
  unfold account_sum. induction gl as [|e gl IH]; intros H; simpl; [reflexivity|].
  destruct (String.eqb (gl_Account e) account) eqn:E.
  - simpl. rewrite IH by (intros x Hx; apply H; right; exact Hx).
    apply String.eqb_eq in E. rewrite (H e (or_introl eq_refl) E). reflexivity.
  - apply IH. intros x Hx. apply H. right. exact Hx.
Qed.

(** X4.  From the empty session, whatever the events, every entry of the
    ledger carries an amount on one side only, on one of nine accounts:
    Cash on either side; Accounts Receivable, Expenses, Cost of Goods Sold,
    Fixed Assets and Depreciation Expense as debits; Sales Revenue,
    Inventory and Accumulated Depreciation as credits. *)
Theorem entries_one_sided :
  forall es e,
    In e (general_ledger (run es empty_session)) ->
    (gl_Account e = "Cash" /\ (gl_Debit e = 0 \/ gl_Credit e = 0))
    \/ (In (gl_Account e)
          [ "Accounts Receivable"; "Expenses"; "Cost of Goods Sold"; "Fixed Assets";
            "Depreciation Expense" ]
        /\ gl_Credit e = 0)
    \/ (In (gl_Account e) [ "Sales Revenue"; "Inventory"; "Accumulated Depreciation" ]
        /\ gl_Debit e = 0).
Proof.
  intros es e Hin.
  assert (H : Forall one_sided (general_ledger (run es empty_session))).
  { apply run_sided. constructor. }
  exact (proj1 (Forall_forall _ _) H e Hin).
Qed.

Lemma entries_one_sided_witness :
  ("Cash" = "Cash" /\ ((24 : Q) = 0 \/ (0 : Q) = 0))
  \/ (In "Cash" [ "Accounts Receivable"; "Expenses"; "Cost of Goods Sold";
                  "Fixed Assets"; "Depreciation Expense" ]
      /\ (0 : Q) = 0)
  \/ (In "Cash" [ "Sales Revenue"; "Inventory"; "Accumulated Depreciation" ]
      /\ (24 : Q) = 0).
Proof.
  apply (entries_one_sided [widget_stocked; widget_sold]
           (mkGL (mkDate 2024 3 1) "Cash" 24 0 "Cash Sale of 3 units of Widget to Bob")).
  left. reflexivity.
Defined.

(** X5.  Consequences for the balance sheet, after any sequence of events
    from the empty session: nothing is ever posted to Accounts Payable, so
    its row and Total Liabilities are 0; Inventory is never debited (stock
    put in through the inventory form is not posted) and Accounts
    Receivable is never credited (no collection is ever posted). *)
Theorem never_posted :
  forall es,
    let gl := general_ledger (run es empty_session) in
    let bs := generate_balance_sheet gl in
    category_amount "Current Liabilities" bs == 0
    /\ category_amount "Total Liabilities" bs == 0
    /\ account_sum gl_Debit "Inventory" gl == 0
    /\ account_sum gl_Credit "Accounts Receivable" gl == 0.
Proof.
  intros es gl bs.
  assert (H : Forall one_sided gl).
  { apply run_sided. constructor. }
  rewrite Forall_forall in H.
  assert (Z0 : forall col account,
             (forall e, one_sided e -> gl_Account e = account -> col e = 0) ->
             account_sum col account gl == 0).
  { intros col account Hc. apply account_sum_zero.
    intros e Hin. apply Hc, H, Hin. }
  assert (AP : forall col, account_sum col "Accounts Payable" gl == 0).
  { intros col. apply Z0. intros e He Ha. exfalso. revert He.
    unfold one_sided, debit_accounts, credit_accounts. rewrite Ha. simpl.
    intros [[E _]|[[H1 _]|[H1 _]]]; [discriminate E| |];
      repeat (destruct H1 as [H1|H1]; [discriminate H1|]); exact H1. }
  assert (Inv : account_sum gl_Debit "Inventory" gl == 0).
  { apply Z0. intros e He Ha. revert He.
    unfold one_sided, debit_accounts, credit_accounts. rewrite Ha. simpl.
    intros [[E _]|[[H1 _]|[_ H1]]]; [discriminate E | | exact H1].
    repeat (destruct H1 as [H1|H1]; [discriminate H1|]). destruct H1. }
  assert (AR : account_sum gl_Credit "Accounts Receivable" gl == 0).
  { apply Z0. intros e He Ha. revert He.
    unfold one_sided, debit_accounts, credit_accounts. rewrite Ha. simpl.
    intros [[E _]|[[_ H1]|[H1 _]]]; [discriminate E | exact H1 |].
    repeat (destruct H1 as [H1|H1]; [discriminate H1|]). destruct H1. }
  assert (L : category_amount "Current Liabilities" bs == 0
              /\ category_amount "Total Liabilities" bs == 0).
  { subst bs. destruct gl as [|e gl'] eqn:G; [split; reflexivity|].
    rewrite balance_sheet_totals by congruence.
    cbn [category_amount filter b_Category String.eqb Ascii.eqb Bool.eqb b_Amount].
    rewrite !AP. split; reflexivity. }
  destruct L as [L1 L2]. repeat split; assumption.
Qed.

(** ** The register and the payables against the ledger *)

Lemma depreciation_sums d rows :
  let batch := flat_map (depreciation_entries d) rows in
  col_sum a_Cost (map depreciated rows) == col_sum a_Cost rows
  /\ col_sum a_Accumulated_Depreciation (map depreciated rows)
     == col_sum a_Accumulated_Depreciation rows
        + account_sum gl_Credit "Accumulated Depreciation" batch
  /\ account_sum gl_Debit "Depreciation Expense" batch
     == account_sum gl_Credit "Accumulated Depreciation" batch
  /\ account_sum gl_Debit "Fixed Assets" batch == 0
  /\ account_sum gl_Debit "Expenses" batch == 0.
Proof.
  induction rows as [|r rows IH]; cbv zeta; cbn [flat_map map col_sum].
  - repeat split; reflexivity.
  - cbv zeta in IH. destruct IH as [I1 [I2 [I3 [I4 I5]]]].
    assert (E : depreciation_entries d r
                = if (0 <? a_Useful_Life r)%Z
                  then [ mkGL d "Depreciation Expense" (annual_depreciation r) 0
                           ("Annual depreciation for " ++ a_Asset_Name r)%string;
                         mkGL d "Accumulated Depreciation" 0 (annual_depreciation r)
                           ("Annual depreciation for " ++ a_Asset_Name r)%string ]
                  else []) by reflexivity.
    assert (E2 : depreciated r
                 = if (0 <? a_Useful_Life r)%Z
                   then accumulate (annual_depreciation r) r else r) by reflexivity.
    rewrite E, E2. clear E E2.
    destruct (0 <? a_Useful_Life r)%Z;
      (split; [|split; [|split; [|split]]]);
      rewrite ?account_sum_app; unfold account_sum in *; simpl; lra.
Qed.

Ltac tied H :=
  unfold stores_tied in *; simpl; rewrite <- ?app_assoc;
  destruct H as [? [? [? ?]]];
  (split; [|split; [|split]]);
  rewrite ?account_sum_app, ?col_sum_app;
  unfold account_sum in *; simpl in *; lra.

Lemma handle_tied e s : stores_tied s -> stores_tied (snd (handle e s)).
Proof.
  intros H. destruct e; simpl handle.
  - unfold submit_receivable, add_receivable_record.
    destruct (nonempty customer && Qlt_bool 0 amount); [|exact H].
    destruct (String.eqb record_type "Cash"); tied H.
  - unfold submit_payable, add_payable_record.
    destruct (nonempty vendor_category && Qlt_bool 0 amount); [|exact H].
    tied H.
  - unfold submit_inventory.
    destruct (nonempty item_name && (0 <=? quantity)%Z && Qle_bool 0 unit_cost
              && Qle_bool 0 selling_price); [|exact H].
    destruct (item_in item_name (inventory s)); [|exact H].
    destruct (item_index item_name (inventory s)); exact H.
  - unfold submit_asset.
    destruct (nonempty asset_name && Qlt_bool 0 cost && (0 <? useful_life)%Z
              && nonempty asset_category && nonempty asset_location); [|exact H].
    tied H.
  - unfold calculate_and_post_depreciation.
    destruct (fixed_assets s) as [|r rows] eqn:Hfa; [exact H|].
    destruct (depreciation_posted (year today) (general_ledger s)); [exact H|].
    rewrite <- Hfa, depreciation_loop.
    pose proof (depreciation_sums today (fixed_assets s)) as D. cbv zeta in D.
    destruct D as [D1 [D2 [D3 [D4 D5]]]].
    destruct H as [H1 [H2 [H3 H4]]].
    unfold stores_tied. cbn [snd general_ledger fixed_assets payables].
    cbv zeta in H1, H2, H3, H4 |- *.
    (split; [|split; [|split]]); rewrite account_sum_app; lra.
  - unfold add_sale_record.
    destruct (negb (item_in item (inventory s))); [exact H|].
    destruct (item_index item (inventory s)) as [idx|]; [|exact H].
    destruct (nth_error (inventory s) idx) as [item_row|]; [|exact H].
    destruct (i_Quantity item_row <? quantity)%Z; [exact H|].
    destruct (String.eqb sale_type "Cash"); tied H.
Qed.

Lemma run_tied es : forall s, stores_tied s -> stores_tied (run es s).
Proof.
  induction es as [|e es IH]; intros s H; [exact H|].
  change (run (e :: es) s) with (run es (snd (handle e s))).
  apply IH, handle_tied, H.
Qed.

(** X6.  From the empty session, whatever the events, the register of
    fixed assets and the ledger tell the same story: the costs in the
    register add up to the debits to Fixed Assets, the accumulated
    depreciations add up to the credits to Accumulated Depreciation and to
    the debits to Depreciation Expense, and so the Fixed Assets (Net) of
    the balance sheet is the total book value (cost less accumulated
    depreciation) of the register. *)
Theorem register_matches_ledger :
  forall es,
    let s := run es empty_session in
    let gl := general_ledger s in
    col_sum a_Cost (fixed_assets s) == account_sum gl_Debit "Fixed Assets" gl
    /\ col_sum a_Accumulated_Depreciation (fixed_assets s)
       == account_sum gl_Credit "Accumulated Depreciation" gl
    /\ col_sum a_Accumulated_Depreciation (fixed_assets s)
       == account_sum gl_Debit "Depreciation Expense" gl
    /\ (gl = [] \/
        In (mkBS "Non-Current Assets" "Fixed Assets (Net)"
              (account_sum gl_Debit "Fixed Assets" gl
               - account_sum gl_Credit "Accumulated Depreciation" gl))
           (generate_balance_sheet gl))
    /\ account_sum gl_Debit "Fixed Assets" gl
       - account_sum gl_Credit "Accumulated Depreciation" gl
       == col_sum (fun r => a_Cost r - a_Accumulated_Depreciation r) (fixed_assets s).
Proof.
  intros es s gl.
  assert (T : stores_tied s).
  { apply run_tied. unfold stores_tied. simpl. repeat split; reflexivity. }
  destruct T as [T1 [T2 [T3 _]]]. fold gl in T1, T2, T3.
  split; [exact T1|]. split; [exact T2|]. split; [exact T3|]. split.
  - destruct gl as [|e gl'] eqn:G; [left; reflexivity|right].
    rewrite balance_sheet_totals by congruence. simpl. tauto.
  - rewrite <- T1, <- T2. clear.
    induction (fixed_assets s) as [|r rows IH]; simpl; [reflexivity|]. lra.
Qed.

(** X7.  From the empty session, whatever the events, the "Total Recorded
    Expenses" of the Analytics page (the sum of the payables) is the sum
    of the debits to Expenses, that is, minus the "Less: Operating
    Expenses" line of the income statement. *)
Theorem payables_match_expenses :
  forall es,
    let s := run es empty_session in
    let gl := general_ledger s in
    total_payables s == account_sum gl_Debit "Expenses" gl
    /\ (gl = [] \/
        In (mkLine "Less: Operating Expenses" (- account_sum gl_Debit "Expenses" gl))
           (generate_income_statement gl)).
Proof.
  intros es s gl.
  assert (T : stores_tied s).
  { apply run_tied. unfold stores_tied. simpl. repeat split; reflexivity. }
  destruct T as [_ [_ [_ T4]]]. fold gl in T4.
  split.
  - unfold total_payables. destruct (payables s) eqn:P; [|exact T4].
    rewrite <- T4. reflexivity.
  - destruct gl as [|e gl'] eqn:G; [left; reflexivity|right]. simpl. tauto.
Qed.

(** ** Depreciation over the years *)

Lemma posted_blocks d s :
  depreciation_posted (year d) (general_ledger s) = true ->
  exists msg, calculate_and_post_depreciation d s = ((warning, msg), s).
Proof.
  intros H. unfold calculate_and_post_depreciation.
  destruct (fixed_assets s); [eexists; reflexivity|].
  rewrite H. eexists; reflexivity.
Qed.

(** X8.  Once a depreciation run has posted for at least one asset, no
    later sequence of events reopens the year: a run dated in the same
    year answers with a warning and changes nothing, whatever happened in
    between; an asset acquired after the run gets no depreciation for that
    year. *)
Theorem depreciation_year_stays_closed :
  forall d d' s es,
    year d' = year d ->
    fst (fst (calculate_and_post_depreciation d s)) = success ->
    (exists row, In row (fixed_assets s) /\ (0 < a_Useful_Life row)%Z) ->
    let s1 := run es (snd (calculate_and_post_depreciation d s)) in
    exists msg, calculate_and_post_depreciation d' s1 = ((warning, msg), s1).
Proof.
  intros d d' s es Hy Hok [row [Hin Hlife]] s1.
  apply posted_blocks. apply depreciation_posted_iff.
  exists (mkGL d "Depreciation Expense" (annual_depreciation row) 0
            ("Annual depreciation for " ++ a_Asset_Name row)%string).
  split; [|split; [reflexivity | symmetry; exact Hy]].
  subst s1.
  destruct (run_posts es (snd (calculate_and_post_depreciation d s))) as [b [E _]].
  rewrite E. apply in_or_app. left.
  revert Hok. unfold calculate_and_post_depreciation.
  destruct (fixed_assets s) as [|r rows] eqn:F; [discriminate|].
  destruct (depreciation_posted (year d) (general_ledger s)); [discriminate|].
  intros _. rewrite <- F, depreciation_loop. simpl.
  apply in_or_app. right. apply in_flat_map. exists row.
  split; [rewrite F; exact Hin|].
  unfold depreciation_entries. apply Z.ltb_lt in Hlife. rewrite Hlife.
  left. reflexivity.
Qed.

(** The truck depreciated for 2024, a van bought afterwards, and a second
    run in 2024. *)
Lemma depreciation_year_stays_closed_witness :
  let s1 :=
    run [Acquisition "Van" "Vehicle" "HQ" (mkDate 2024 7 1) 900 100 4]
      scenario4_depreciated in
  exists msg,
    calculate_and_post_depreciation (mkDate 2024 12 31) s1 = ((warning, msg), s1).
Proof.
  apply (depreciation_year_stays_closed (mkDate 2024 12 31) (mkDate 2024 12 31)
           scenario4
           [Acquisition "Van" "Vehicle" "HQ" (mkDate 2024 7 1) 900 100 4]).
  - reflexivity.
  - reflexivity.
  - exists (mkAsset "YOUR_COMPANY-VEHICLE-2024-HQ" "Truck" "Vehicle" "HQ"
              (mkDate 2024 1 15) 1200 200 5 0).
    split; [left; reflexivity | reflexivity].
Defined.

Lemma depreciation_entries_dated d rows e :
  In e (flat_map (depreciation_entries d) rows) -> gl_Date e = d.
Proof.
  intros H. apply in_flat_map in H. destruct H as [row [_ H]].
  unfold depreciation_entries in H.
  destruct (0 <? a_Useful_Life row)%Z; [|destruct H].
  destruct H as [<-|[<-|[]]]; reflexivity.
Qed.

Lemma iter_depreciated_accumulated k row :
  (0 < a_Useful_Life row)%Z ->
  a_Accumulated_Depreciation (Nat.iter k depreciated row)
  == a_Accumulated_Depreciation row
     + inject_Z (Z.of_nat k) * annual_depreciation row
  /\ asset_identity (Nat.iter k depreciated row) = asset_identity row.
Proof.
  intros Hl. induction k as [|k [IHa IHi]].
  - simpl. split; [ring | reflexivity].
  - rewrite Nat.iter_succ. set (r := Nat.iter k depreciated row) in *.
    assert (Hr : a_Useful_Life r = a_Useful_Life row).
    { unfold asset_identity in IHi. congruence. }
    assert (Ha : annual_depreciation r = annual_depreciation row).
    { unfold annual_depreciation. unfold asset_identity in IHi. congruence. }
    split; [|rewrite depreciated_identity; exact IHi].
    unfold depreciated. apply Z.ltb_lt in Hl. rewrite Hr, Hl.
    cbn [accumulate a_Accumulated_Depreciation].
    rewrite Ha, IHa, Nat2Z.inj_succ. unfold Z.succ. rewrite inject_Z_plus. ring.
Qed.

Lemma yearly_runs dates :
  forall s,
    fixed_assets s <> [] ->
    NoDup (map year dates) ->
    (forall e, In e (general_ledger s) ->
               gl_Account e = "Depreciation Expense" ->
               ~ In (year (gl_Date e)) (map year dates)) ->
    fixed_assets (run (map Depreciation dates) s)
    = map (Nat.iter (List.length dates) depreciated) (fixed_assets s).
Proof.
  induction dates as [|d dates IH]; intros s Hne Hnd Hfree.
  - simpl. rewrite map_id. reflexivity.
  - change (run (map Depreciation (d :: dates)) s)
      with (run (map Depreciation dates) (snd (calculate_and_post_depreciation d s))).
    inversion Hnd as [|y ys Hy Hnd']; subst.
    assert (E : snd (calculate_and_post_depreciation d s)
                = mkSession (receivables s) (payables s) (inventory s)
                    (map depreciated (fixed_assets s))
                    (general_ledger s
                     ++ flat_map (depreciation_entries d) (fixed_assets s))).
    { unfold calculate_and_post_depreciation.
      destruct (fixed_assets s) as [|r rows] eqn:F; [congruence|].
      destruct (depreciation_posted (year d) (general_ledger s)) eqn:P.
      - apply depreciation_posted_iff in P. destruct P as [e [Hin [Ha Hyr]]].
        exfalso. apply (Hfree e Hin Ha). left. symmetry. exact Hyr.
      - rewrite <- F, depreciation_loop. reflexivity. }
    rewrite E, IH.
    + simpl. rewrite map_map. apply map_ext. intros r.
      rewrite <- Nat.iter_succ_r. reflexivity.
    + simpl. destruct (fixed_assets s); [congruence | discriminate].
    + exact Hnd'.
    + simpl. intros e Hin Ha Hyr. apply in_app_or in Hin. destruct Hin as [Hin|Hin].
      * apply (Hfree e Hin Ha). right. exact Hyr.
      * apply depreciation_entries_dated in Hin. rewrite Hin in Hyr. exact (Hy Hyr).
Qed.

(** X9.  Depreciation runs in pairwise different years, none of which has
    a Depreciation Expense entry in the ledger yet, all go through: after
    [k] of them every asset of useful life > 0 has gained [k] times
    (cost - salvage) / useful life, and nothing stops the accumulation at
    the depreciable amount: with more runs than years of useful life the
    accumulated depreciation of an asset with salvage < cost exceeds
    cost - salvage. *)
Theorem depreciation_year_after_year :
  forall dates s,
    fixed_assets s <> [] ->
    NoDup (map year dates) ->
    (forall e, In e (general_ledger s) ->
               gl_Account e = "Depreciation Expense" ->
               ~ In (year (gl_Date e)) (map year dates)) ->
    let k := List.length dates in
    let s' := run (map Depreciation dates) s in
    List.length (fixed_assets s') = List.length (fixed_assets s)
    /\ forall i row,
         nth_error (fixed_assets s) i = Some row ->
         (0 < a_Useful_Life row)%Z ->
         exists row',
           nth_error (fixed_assets s') i = Some row'
           /\ asset_identity row' = asset_identity row
           /\ a_Accumulated_Depreciation row'
              == a_Accumulated_Depreciation row
                 + inject_Z (Z.of_nat k)
                   * ((a_Cost row - a_Salvage_Value row)
                      / inject_Z (a_Useful_Life row))
           /\ (0 <= a_Accumulated_Depreciation row ->
               a_Salvage_Value row < a_Cost row ->
               (a_Useful_Life row < Z.of_nat k)%Z ->
               a_Cost row - a_Salvage_Value row < a_Accumulated_Depreciation row').
Proof.
  intros dates s Hne Hnd Hfree k s'.
  assert (E : fixed_assets s' = map (Nat.iter k depreciated) (fixed_assets s)).
  { apply yearly_runs; assumption. }
  split; [rewrite E; apply length_map|].
  intros i row Hi Hl.
  destruct (iter_depreciated_accumulated k row Hl) as [Ha Hid].
  exists (Nat.iter k depreciated row).
  split; [rewrite E, nth_error_map, Hi; reflexivity|].
  split; [exact Hid|]. split; [exact Ha|].
  intros Hacc Hsc Hk. rewrite Ha. unfold annual_depreciation.
  assert (L : 0 < inject_Z (a_Useful_Life row)).
  { change 0 with (inject_Z 0). rewrite <- Zlt_Qlt. exact Hl. }
  assert (K : inject_Z (a_Useful_Life row) < inject_Z (Z.of_nat k)).
  { rewrite <- Zlt_Qlt. exact Hk. }
  set (n := inject_Z (Z.of_nat k)) in *.
  set (u := inject_Z (a_Useful_Life row)) in *.
  set (b := a_Cost row - a_Salvage_Value row).
  assert (B : 0 < b) by (subst b; lra).
  assert (M : b < n * (b / u)).
  { setoid_replace (n * (b / u)) with (b * (n / u)) by (field; lra).
    assert (1 < n / u).
    { apply Qlt_shift_div_l; lra. }
    nra. }
  lra.
Qed.

(** Six yearly runs on the truck (cost 1200, salvage 200, five years): its
    accumulated depreciation ends above the 1000 there was to depreciate. *)
Lemma depreciation_year_after_year_witness :
  exists row',
    nth_error (fixed_assets (run (map Depreciation six_years) scenario4)) 0 = Some row'
    /\ 1200 - 200 < a_Accumulated_Depreciation row'.
Proof.
  assert (H1 : fixed_assets scenario4 <> []) by discriminate.
  assert (H2 : NoDup (map year six_years)).
  { repeat constructor; simpl; intuition discriminate. }
  assert (H3 : forall e, In e (general_ledger scenario4) ->
                         gl_Account e = "Depreciation Expense" ->
                         ~ In (year (gl_Date e)) (map year six_years)).
  { intros e [<-|[<-|[]]] Ha; discriminate Ha. }
  destruct (depreciation_year_after_year six_years scenario4 H1 H2 H3) as [_ H].
  destruct (H 0%nat
              (mkAsset "YOUR_COMPANY-VEHICLE-2024-HQ" "Truck" "Vehicle" "HQ"
                 (mkDate 2024 1 15) 1200 200 5 0)
              eq_refl eq_refl) as [row' [Hn [_ [_ Hex]]]].
  exists row'. split; [exact Hn|].
  apply Hex.
  - discriminate.
  - reflexivity.
  - reflexivity.
Defined.

(** ** The trial balance *)

Lemma insert_key_in a keys x : In x (insert_key a keys) <-> x = a \/ In x keys.
Proof.
  induction keys as [|b keys IH]; simpl.
  - intuition.
  - destruct (String.leb a b); simpl; [intuition|]. rewrite IH. intuition.
Qed.

Lemma insert_key_nodup a keys :
  ~ In a keys -> NoDup keys -> NoDup (insert_key a keys).
Proof.
  induction keys as [|b keys IH]; simpl; intros Ha Hn.
  - constructor; [tauto | constructor].
  - destruct (String.leb a b).
    + constructor; [simpl; tauto | exact Hn].
    + inversion Hn; subst. constructor.
      * rewrite insert_key_in. intros [->|H]; tauto.
      * apply IH; tauto.
Qed.

Lemma sorted_keys_in l x : In x (fold_right insert_key [] l) <-> In x l.
Proof.
  induction l as [|a l IH]; simpl; [tauto|].
  rewrite insert_key_in, IH. intuition.
Qed.

Lemma sorted_keys_nodup l : NoDup l -> NoDup (fold_right insert_key [] l).
Proof.
  induction l as [|a l IH]; simpl; intros H; [constructor|].
  inversion H; subst. apply insert_key_nodup; [|apply IH; assumption].
  rewrite sorted_keys_in. assumption.
Qed.

Lemma group_keys_in gl a : In a (group_keys gl) <-> In a (map gl_Account gl).
Proof.
  unfold group_keys. rewrite sorted_keys_in. apply nodup_In.
Qed.

Lemma group_keys_nodup gl : NoDup (group_keys gl).
Proof.
  unfold group_keys. apply sorted_keys_nodup, NoDup_nodup.
Qed.





Lemma Qlt_bool_iff x y : Qlt_bool x y = true <-> x < y.
Proof.
  unfold Qlt_bool. destruct (Qle_bool y x) eqn:E; simpl.
  - apply Qle_bool_iff in E. split; [discriminate | intros H; lra].
  - split; [intros _ | reflexivity].
    apply Qnot_le_lt. intros H. apply Qle_bool_iff in H. congruence.
Qed.

Lemma Qlt_bool_false x y : Qlt_bool x y = false <-> y <= x.
Proof.
  pose proof (Qlt_bool_iff x y) as H.
  destruct (Qlt_bool x y); split; intros H1; try reflexivity; try discriminate.
  - assert (x < y) by (apply H; reflexivity). lra.
  - apply Qnot_lt_le. intros H2. apply H in H2. discriminate.
Qed.

(** What a row of [tb_display] says about its account. *)
Lemma trial_balance_row_spec gl a r :
  In r (trial_balance_row gl a) ->
  t_Account r = a
  /\ ((t_Credit r = 0 /\ t_Debit r = balance_of a gl /\ 0.01 < t_Debit r)
      \/ (t_Debit r = 0 /\ t_Credit r == - balance_of a gl /\ 0.01 < t_Credit r)).
Proof.
  unfold trial_balance_row. cbv zeta.
  destruct (Qlt_bool 0.01 (Qabs (balance_of a gl))) eqn:K; [|intros []].
  apply Qlt_bool_iff in K.
  destruct (Qlt_bool 0 (balance_of a gl)) eqn:P; intros [<-|[]];
    cbn [t_Account t_Debit t_Credit].
  - apply Qlt_bool_iff in P. split; [reflexivity|]. left.
    rewrite Qabs_pos in K by lra.
    split; [reflexivity|]. split; [reflexivity | exact K].
  - apply Qlt_bool_false in P. split; [reflexivity|]. right.
    split; [reflexivity|].
    split; [apply Qabs_neg; exact P | exact K].
Qed.

Lemma trial_balance_rows_accounts gl keys :
  map t_Account (flat_map (trial_balance_row gl) keys)
  = filter (fun a => negb (hidden gl a)) keys.
Proof.
  induction keys as [|a keys IH]; simpl; [reflexivity|].
  rewrite map_app, IH. unfold hidden, trial_balance_row at 1. cbv zeta.
  destruct (Qlt_bool 0.01 (Qabs (balance_of a gl))); simpl; [|reflexivity].
  destruct (Qlt_bool 0 (balance_of a gl)); reflexivity.
Qed.


Lemma trial_balance_shape gl :
  generate_trial_balance gl = []
  \/ exists r rows,
       flat_map (trial_balance_row gl) (group_keys gl) = r :: rows
       /\ generate_trial_balance gl
          = (r :: rows)
            ++ [mkTB "Total" (col_sum t_Debit (r :: rows))
                  (col_sum t_Credit (r :: rows))].
Proof.
  unfold generate_trial_balance. destruct gl as [|e gl]; [left; reflexivity|].
  cbv zeta.
  destruct (flat_map (trial_balance_row (e :: gl)) (group_keys (e :: gl)))
    as [|r rows]; [left; reflexivity|].
  right. exists r, rows. split; reflexivity.
Qed.

(** X10.  The trial balance of any ledger is empty, or it is a list of
    account rows followed by one row labelled Total.  The account rows
    have pairwise different accounts, all of them accounts of the ledger;
    each shows the net balance of its account on one side only, as a
    debit when debits exceed credits and as a credit otherwise, and always
    an amount above 0.01.  The Total row holds the sums of the two
    columns of the account rows. *)
Theorem trial_balance_rows :
  forall gl,
    generate_trial_balance gl = []
    \/ exists rows,
         rows <> []
         /\ generate_trial_balance gl
            = rows ++ [mkTB "Total" (col_sum t_Debit rows) (col_sum t_Credit rows)]
         /\ NoDup (map t_Account rows)
         /\ forall r, In r rows ->
              In (t_Account r) (map gl_Account gl)
              /\ ((t_Credit r = 0
                   /\ t_Debit r = balance_of (t_Account r) gl
                   /\ 0.01 < t_Debit r)
                  \/ (t_Debit r = 0
                      /\ t_Credit r == - balance_of (t_Account r) gl
                      /\ 0.01 < t_Credit r)).
Proof.
  intros gl. destruct (trial_balance_shape gl) as [E | [r [rows [Hrows E]]]];
    [left; exact E | right].
  exists (r :: rows). split; [discriminate|]. split; [exact E|].
  rewrite <- Hrows. split.
  - rewrite trial_balance_rows_accounts. apply NoDup_filter, group_keys_nodup.
  - intros x Hx. apply in_flat_map in Hx. destruct Hx as [a [Ha Hx]].
    destruct (trial_balance_row_spec gl a x Hx) as [Hacc Hside].
    rewrite Hacc. split; [apply group_keys_in; exact Ha | exact Hside].
Qed.




(** ** The statement of changes in equity *)

(** X12.  The statement of changes in equity has its four rows for every
    ledger, the empty one included (where the other statements are
    empty): beginning equity 0, the net income, no withdrawals, and an
    ending equity equal to the net income, which is revenue less cost of
    goods sold, expenses and depreciation expense, and equal to the Equity
    amount read off the balance sheet. *)
Theorem equity_statement :
  forall gl,
    exists net_income ending_equity,
      generate_statement_of_change_in_equity gl
      = [ mkLine "Beginning Equity Balance" 0;
          mkLine "Add: Net Income (Loss)" net_income;
          mkLine "Less: Dividends/Withdrawals (N/A in demo)" 0;
          mkLine "Ending Equity Balance" ending_equity ]
      /\ ending_equity == net_income
      /\ net_income
         == account_sum gl_Credit "Sales Revenue" gl
            - account_sum gl_Debit "Cost of Goods Sold" gl
            - account_sum gl_Debit "Expenses" gl
            - account_sum gl_Debit "Depreciation Expense" gl
      /\ ending_equity == category_amount "Equity" (generate_balance_sheet gl).
Proof.
  intros gl. unfold generate_statement_of_change_in_equity. cbv zeta.
  eexists. eexists. split; [reflexivity|].
  destruct gl as [|e gl].
  - split; [reflexivity|]. split; reflexivity.
  - split; [ring|]. split.
    + cbn [generate_income_statement map last l_Amount]. ring.
    + rewrite balance_sheet_totals by congruence.
      cbn [category_amount filter b_Category String.eqb Ascii.eqb Bool.eqb b_Amount].
      reflexivity.
Qed.

(** ** The cash flow statement against the balance sheet *)

Lemma prefix_append p a b : String.prefix p a = true -> String.prefix p (a ++ b) = true.
Proof.
  revert a. induction p as [|c p IH]; intros a H.
  - destruct a; destruct b; reflexivity.
  - destruct a as [|c' a]; simpl in *; [discriminate|].
    destruct (ascii_dec c c'); [apply IH; exact H | discriminate].
Qed.

Lemma contains_append pat a b : contains pat a = true -> contains pat (a ++ b) = true.
Proof.
  induction a as [|c a IH]; simpl; intros H.
  - rewrite orb_false_r in H. destruct pat; [|discriminate H].
    destruct b; reflexivity.
  - apply orb_prop in H. destruct H as [H|H].
    + pose proof (prefix_append pat (String c a) b H) as P.
      change (String.prefix pat (String c (a ++ b)) || contains pat (a ++ b) = true).
      change (String.prefix pat (String c (a ++ b)) = true) in P.
      rewrite P. reflexivity.
    + change (String.prefix pat (String c (a ++ b)) || contains pat (a ++ b) = true).
      rewrite (IH H). apply orb_true_r.
Qed.

Lemma cash_sums gl :
  Forall cash_classified gl ->
  cash_sum gl_Debit "Sale" gl == account_sum gl_Debit "Cash" gl
  /\ cash_sum gl_Credit "Payment" gl == account_sum gl_Credit "Cash" gl
  /\ cash_sum gl_Credit "Acquisition" gl == 0.
Proof.
  unfold cash_sum, account_sum.
  induction gl as [|e gl IH]; intros H; [repeat split; reflexivity|].
  inversion H as [|x l He Hgl]; subst.
  destruct (IH Hgl) as [I1 [I2 I3]]. clear IH H.
  cbn [filter]. unfold cash_classified in He.
  destruct (String.eqb (gl_Account e) "Cash") eqn:A; cbn [andb];
    [|split; [exact I1 | split; [exact I2 | exact I3]]].
  apply String.eqb_eq in A.
  destruct (He A) as [[Hc [Hd Hs]] | [Hd [Hc [Hp Ha]]]].
  - rewrite Hs, Hc. replace (Qlt_bool 0 0) with false by reflexivity. cbn [andb].
    rewrite andb_true_r.
    destruct (Qlt_bool 0 (gl_Debit e)) eqn:P; cbn [col_sum].
    + rewrite I1, Hc. repeat split; lra.
    + apply Qlt_bool_false in P. rewrite Hc. repeat split; lra.
  - rewrite Hp, Ha, Hd. replace (Qlt_bool 0 0) with false by reflexivity.
    cbn [andb]. rewrite andb_true_r, andb_false_r.
    destruct (Qlt_bool 0 (gl_Credit e)) eqn:P; cbn [col_sum].
    + rewrite I2, Hd. repeat split; lra.
    + apply Qlt_bool_false in P. rewrite Hd. repeat split; lra.
Qed.

Ltac not_cash :=
  unfold cash_classified; cbn [gl_Account];
  let A := fresh "A" in intros A; discriminate A.

Ltac each_entry tac :=
  repeat (apply Forall_cons; [tac|]); try apply Forall_nil.

Lemma depreciation_batch_not_cash d rows :
  Forall cash_classified (flat_map (depreciation_entries d) rows).
Proof.
  induction rows as [|r rows IH]; simpl; [constructor|].
  apply Forall_app. split; [|exact IH].
  unfold depreciation_entries. destruct (0 <? a_Useful_Life r)%Z;
    each_entry not_cash.
Qed.

Lemma handle_cash e s :
  cash_flow_friendly e = true ->
  Forall stock_ok (inventory s) ->
  exists batch,
    general_ledger (snd (handle e s)) = general_ledger s ++ batch
    /\ Forall cash_classified batch.
Proof.
  intros Hf Hstock. destruct e; simpl handle; simpl in Hf.
  - unfold submit_receivable, add_receivable_record.
    destruct (nonempty customer && Qlt_bool 0 amount) eqn:G; [|nothing_sided].
    apply andb_prop in G. destruct G as [_ G]. apply Qlt_bool_iff in G.
    destruct (String.eqb record_type "Cash"); simpl; rewrite <- ?app_assoc; simpl;
      (eexists; split; [reflexivity|]); each_entry ltac:(try not_cash).
    intros _. left. cbn [gl_Credit gl_Debit gl_Description].
    split; [reflexivity|]. split; [lra|].
    apply contains_append. reflexivity.
  - unfold submit_payable, add_payable_record.
    destruct (nonempty vendor_category && Qlt_bool 0 amount) eqn:G; [|nothing_sided].
    apply andb_prop in G. destruct G as [_ G]. apply Qlt_bool_iff in G.
    simpl; rewrite <- ?app_assoc; simpl.
    eexists; split; [reflexivity|]. each_entry ltac:(try not_cash).
    intros _. right. cbn [gl_Credit gl_Debit gl_Description].
    split; [reflexivity|]. split; [lra|]. split.
    + apply contains_append. reflexivity.
    + apply negb_true_iff in Hf. exact Hf.
  - unfold submit_inventory.
    destruct (nonempty item_name && (0 <=? quantity)%Z && Qle_bool 0 unit_cost
              && Qle_bool 0 selling_price); [|nothing_sided].
    destruct (item_in item_name (inventory s)); [|nothing_sided].
    destruct (item_index item_name (inventory s)); nothing_sided.
  - discriminate Hf.
  - unfold calculate_and_post_depreciation.
    destruct (fixed_assets s) as [|r rows] eqn:Hfa; [nothing_sided|].
    destruct (depreciation_posted (year today) (general_ledger s)); [nothing_sided|].
    rewrite <- Hfa, depreciation_loop. simpl.
    eexists. split; [reflexivity|]. apply depreciation_batch_not_cash.
  - unfold add_sale_record.
    destruct (negb (item_in item (inventory s))); [nothing_sided|].
    destruct (item_index item (inventory s)) as [idx|]; [|nothing_sided].
    destruct (nth_error (inventory s) idx) as [item_row|] eqn:Hn; [|nothing_sided].
    destruct (i_Quantity item_row <? quantity)%Z; [nothing_sided|].
    pose proof (proj1 (Forall_forall _ _) Hstock item_row (nth_error_In _ _ Hn))
      as [_ [_ Hp]].
    apply Z.leb_le in Hf.
    assert (Hrev : 0 <= inject_Z quantity * i_Selling_Price item_row).
    { apply Qmult_le_0_compat; [|exact Hp].
      change 0 with (inject_Z 0). rewrite <- Zle_Qle. exact Hf. }
    destruct (String.eqb sale_type "Cash"); simpl; rewrite <- ?app_assoc; simpl;
      (eexists; split; [reflexivity|]); each_entry ltac:(try not_cash).
    intros _. left. cbn [gl_Credit gl_Debit gl_Description].
    split; [reflexivity|]. split; [exact Hrev|].
    apply contains_append. reflexivity.
Qed.

Lemma run_cash es :
  forall s,
    forallb cash_flow_friendly es = true ->
    Forall stock_ok (inventory s) ->
    Forall cash_classified (general_ledger s) ->
    Forall cash_classified (general_ledger (run es s)).
Proof.
  induction es as [|e es IH]; intros s Hf Hs Hc; [exact Hc|].
  simpl in Hf. apply andb_prop in Hf. destruct Hf as [He Hes].
  change (run (e :: es) s) with (run es (snd (handle e s))).
  apply IH; [exact Hes | apply handle_stock; exact Hs |].
  destruct (handle_cash e s He Hs) as [b [E Hb]].
  rewrite E. apply Forall_app. split; assumption.
Qed.

(** X13.  From the empty session, after events among which there is no
    acquisition, no payable whose cash memo contains "Acquisition" and no
    sale of a negative quantity, the cash flow statement agrees with the
    balance sheet: Net Cash from Operating Activities and the Ending Cash
    Balance both equal the Cash row of the balance sheet, debits less
    credits to Cash. *)
Theorem cash_flow_reconciles :
  forall es,
    forallb cash_flow_friendly es = true ->
    let gl := general_ledger (run es empty_session) in
    let cash := account_sum gl_Debit "Cash" gl - account_sum gl_Credit "Cash" gl in
    gl = []
    \/ exists operating ending,
         nth_error (generate_cash_flow_statement gl) 0
         = Some (mkCF "Net Cash from Operating Activities" operating)
         /\ nth_error (generate_cash_flow_statement gl) 5
            = Some (mkCF "Ending Cash Balance" ending)
         /\ operating == cash /\ ending == cash
         /\ In (mkBS "Current Assets" "Cash" cash) (generate_balance_sheet gl).
Proof.
  intros es Hf gl cash.
  assert (C : Forall cash_classified gl).
  { apply run_cash; [exact Hf | constructor | constructor]. }
  destruct (cash_sums gl C) as [S1 [S2 S3]].
  destruct gl as [|e gl'] eqn:G; [left; reflexivity | right].
  rewrite <- G in *.
  assert (Hne : gl <> []) by (rewrite G; discriminate).
  eexists. eexists.
  split; [rewrite G; reflexivity|]. split; [rewrite G; reflexivity|].
  subst cash. rewrite <- G.
  split; [lra|]. split; [lra|].
  rewrite balance_sheet_totals by exact Hne. left. reflexivity.
Qed.

(** Scenario 2 followed by a rent payment of 10: 24 in, 10 out. *)
Lemma cash_flow_reconciles_witness :
  let gl := general_ledger (run widgets_and_rent empty_session) in
  exists operating ending,
    nth_error (generate_cash_flow_statement gl) 0
    = Some (mkCF "Net Cash from Operating Activities" operating)
    /\ nth_error (generate_cash_flow_statement gl) 5
       = Some (mkCF "Ending Cash Balance" ending)
    /\ operating == 14 /\ ending == 14.
Proof.
  intros gl.
  destruct (cash_flow_reconciles widgets_and_rent eq_refl)
    as [E | [operating [ending [H0 [H5 [Ho [He _]]]]]]].
  - discriminate E.
  - exists operating, ending. fold gl in H0, H5.
    split; [exact H0|]. split; [exact H5|].
    split; [rewrite Ho | rewrite He]; reflexivity.
Defined.

(** ** The rows of the forecast *)

Lemma forecast_year_facts this_year g c o i p :
  let '(r, b, p') := forecast_year this_year g c o i p in
  (fi_Year r = (this_year + i)%Z /\ fb_Year b = (this_year + i)%Z)
  /\ (fi_Sales_Revenue r = prev_revenue p * (1 + g / 100)
      /\ prev_revenue p' = fi_Sales_Revenue r)
  /\ (fi_Cost_of_Goods_Sold r = fi_Sales_Revenue r * (c / 100)
      /\ fi_Operating_Expenses r = fi_Sales_Revenue r * (o / 100)
      /\ fi_Gross_Profit r = fi_Sales_Revenue r - fi_Cost_of_Goods_Sold r
      /\ fi_Net_Income r = fi_Gross_Profit r - fi_Operating_Expenses r)
  /\ (fb_Fixed_Assets_Net b = prev_fixed_assets_net p
      /\ prev_fixed_assets_net p' = prev_fixed_assets_net p
      /\ fb_Long_term_Debt b = prev_lt_debt p
      /\ prev_lt_debt p' = prev_lt_debt p)
  /\ (fb_Owner_Equity b = prev_owner_equity p + fi_Net_Income r
      /\ prev_owner_equity p' = fb_Owner_Equity b).
Proof.
  unfold forecast_year. cbv zeta. cbn.
  repeat split.
Qed.

Lemma forecast_loop_rows this_year g c o n :
  forall i p,
    let (is_rows, bs_rows) := forecast_loop this_year g c o n i p in
    List.length is_rows = n /\ List.length bs_rows = n
    /\ Forall (fun r =>
                 fi_Cost_of_Goods_Sold r = fi_Sales_Revenue r * (c / 100)
                 /\ fi_Operating_Expenses r = fi_Sales_Revenue r * (o / 100)
                 /\ fi_Gross_Profit r = fi_Sales_Revenue r - fi_Cost_of_Goods_Sold r
                 /\ fi_Net_Income r = fi_Gross_Profit r - fi_Operating_Expenses r)
         is_rows
    /\ forall k is_row bs_row,
         nth_error is_rows k = Some is_row ->
         nth_error bs_rows k = Some bs_row ->
         fi_Year is_row = (this_year + (i + Z.of_nat k))%Z
         /\ fb_Year bs_row = (this_year + (i + Z.of_nat k))%Z
         /\ fi_Sales_Revenue is_row = compounded g (S k) (prev_revenue p)
         /\ fb_Fixed_Assets_Net bs_row = prev_fixed_assets_net p
         /\ fb_Long_term_Debt bs_row = prev_lt_debt p
         /\ fb_Owner_Equity bs_row
            == prev_owner_equity p + col_sum fi_Net_Income (firstn (S k) is_rows).
Proof.
  induction n as [|n IH]; intros i p; cbn [forecast_loop].
  - split; [reflexivity|]. split; [reflexivity|]. split; [constructor|].
    intros [|k] ? ? Hnil; discriminate Hnil.
  - pose proof (forecast_year_facts this_year g c o i p) as F.
    destruct (forecast_year this_year g c o i p) as [[r b] p'].
    specialize (IH (i + 1)%Z p').
    destruct (forecast_loop this_year g c o n (i + 1)%Z p') as [is_rows bs_rows].
    destruct F as [[Y1 Y2] [[R1 R2] [M [[A1 [A2 [A3 A4]]] [E1 E2]]]]].
    destruct IH as [L1 [L2 [HM IH]]].
    split; [simpl; congruence|]. split; [simpl; congruence|].
    split; [constructor; assumption|].
    intros [|k] is_row bs_row Hi Hb; simpl in Hi, Hb.
    + injection Hi as <-. injection Hb as <-.
      rewrite Z.add_0_r. repeat split; try assumption.
      rewrite E1. cbn [firstn col_sum]. ring.
    + destruct (IH k is_row bs_row Hi Hb) as [K1 [K2 [K3 [K4 [K5 K6]]]]].
      rewrite Nat2Z.inj_succ.
      split; [rewrite K1; f_equal; lia|]. split; [rewrite K2; f_equal; lia|].
      split.
      { rewrite K3, R2, R1. unfold compounded.
        rewrite (Nat.iter_succ_r (S k)). reflexivity. }
      split; [congruence|]. split; [congruence|].
      rewrite K6, E2, E1.
      change (firstn (S (S k)) (r :: is_rows)) with (r :: firstn (S k) is_rows).
      cbn [col_sum]. ring.
Qed.

(** X14.  The rows [forecast_financials] returns.  There are as many rows
    in each frame as years asked for (none for a horizon of zero or
    less).  In row [k] (counting from 0) the year is the current year plus
    [k + 1]; the revenue is the uploaded Sales Revenue grown [k + 1] times
    by the growth rate; Fixed Assets (Net) and Long-term Debt are those of
    the uploaded balance sheet; and the owner's equity is the uploaded
    equity plus the net incomes forecast up to that year. *)
Theorem forecast_rows :
  forall this_year g c o is_df bs_df years is_rows bs_rows,
    forecast_financials this_year g c o is_df bs_df years = Some (is_rows, bs_rows) ->
    List.length is_rows = Z.to_nat years
    /\ List.length bs_rows = Z.to_nat years
    /\ forall k is_row bs_row,
         nth_error is_rows k = Some is_row ->
         nth_error bs_rows k = Some bs_row ->
         fi_Year is_row = (this_year + (1 + Z.of_nat k))%Z
         /\ fb_Year bs_row = (this_year + (1 + Z.of_nat k))%Z
         /\ fi_Sales_Revenue is_row
            = compounded g (S k) (item_sum "Sales Revenue" is_df)
         /\ fb_Fixed_Assets_Net bs_row = item_sum "Fixed Assets (Net)" bs_df
         /\ fb_Long_term_Debt bs_row = item_sum "Long-term Debt" bs_df
         /\ fb_Owner_Equity bs_row
            == item_sum "Owner's Equity (Simplified)" bs_df
               + col_sum fi_Net_Income (firstn (S k) is_rows).
Proof.
  intros this_year g c o is_df bs_df years is_rows bs_rows.
  unfold forecast_financials.
  destruct is_df as [|l1 is_df]; [discriminate|].
  destruct bs_df as [|l2 bs_df]; [discriminate|].
  cbv beta iota zeta. rewrite long_term_debt_sum.
  match goal with
  | |- Some (forecast_loop _ _ _ _ ?n ?i ?p) = _ -> _ =>
      pose proof (forecast_loop_rows this_year g c o n i p) as L;
      destruct (forecast_loop this_year g c o n i p) as [is0 bs0]
  end.
  intros E. injection E as <- <-.
  destruct L as [L1 [L2 [_ L]]].
  split; [exact L1|]. split; [exact L2|]. exact L.
Qed.

(** Scenario 5 forecast over three years at 5% growth: the third row. *)
Lemma forecast_rows_witness :
  exists is_rows bs_rows is_row bs_row,
    forecast_financials 2024 5 40 30 scenario5_is scenario5_bs 3
    = Some (is_rows, bs_rows)
    /\ nth_error is_rows 2 = Some is_row /\ nth_error bs_rows 2 = Some bs_row
    /\ fi_Year is_row = 2027%Z
    /\ fi_Sales_Revenue is_row == 1157.625
    /\ fb_Fixed_Assets_Net bs_row == 650.
Proof.
  destruct (forecast_financials 2024 5 40 30 scenario5_is scenario5_bs 3)
    as [[is_rows bs_rows]|] eqn:E; [|discriminate E].
  pose proof (forecast_rows 2024 5 40 30 scenario5_is scenario5_bs 3 is_rows bs_rows E)
    as [_ [_ H]].
  assert (E' := E). vm_compute in E'. injection E' as <- <-.
  eexists. eexists. eexists. eexists.
  split; [reflexivity|]. split; [reflexivity|]. split; [reflexivity|].
  match goal with
  | |- fi_Year ?r = _ /\ _ == _ /\ fb_Fixed_Assets_Net ?b == _ =>
      destruct (H 2%nat r b eq_refl eq_refl) as [Y [_ [R [A _]]]]
  end.
  split; [exact Y|]. split; [rewrite R | rewrite A]; reflexivity.
Defined.

(** ** The percentages and the scenario of the Analytics page *)

Lemma item_or_zero_sum item df : item_or_zero item df = item_sum item df.
Proof.
  unfold item_or_zero. destruct (has_item item df) eqn:E; [reflexivity|].
  symmetry. apply item_sum_absent. exact E.
Qed.

Lemma truthy_nonzero x : ~ x == 0 -> truthy x = true.
Proof.
  intros H. unfold truthy. destruct (Qeq_bool x 0) eqn:E; [|reflexivity].
  apply Qeq_bool_iff in E. contradiction.
Qed.

(** X15.  With the two percentages the Analytics page derives from an
    uploaded income statement of non-zero revenue, every year of the
    forecast keeps the uploaded cost structure: cost of goods sold,
    operating expenses and net income stand to the forecast revenue as
    the uploaded ones stand to the uploaded revenue. *)
Theorem forecast_keeps_margins :
  forall this_year g is_df bs_df years is_rows bs_rows,
    let revenue := item_sum "Sales Revenue" is_df in
    let cogs := item_sum "Cost of Goods Sold" is_df in
    let op_exp := item_sum "Operating Expenses" is_df in
    ~ revenue == 0 ->
    forecast_financials this_year g (fst (forecast_assumptions is_df))
      (snd (forecast_assumptions is_df)) is_df bs_df years
    = Some (is_rows, bs_rows) ->
    Forall (fun r =>
              fi_Cost_of_Goods_Sold r * revenue == fi_Sales_Revenue r * cogs
              /\ fi_Operating_Expenses r * revenue == fi_Sales_Revenue r * op_exp
              /\ fi_Net_Income r * revenue
                 == fi_Sales_Revenue r * (revenue - cogs - op_exp))
      is_rows.
Proof.
  intros this_year g is_df bs_df years is_rows bs_rows revenue cogs op_exp Hrev.
  unfold forecast_assumptions. cbv zeta. rewrite !item_or_zero_sum.
  fold revenue cogs op_exp. rewrite (truthy_nonzero _ Hrev). cbn [fst snd].
  unfold forecast_financials.
  destruct is_df as [|l1 is_df]; [discriminate|].
  destruct bs_df as [|l2 bs_df]; [discriminate|].
  cbv beta iota zeta.
  match goal with
  | |- Some (forecast_loop _ ?g ?c ?o ?n ?i ?p) = _ -> _ =>
      pose proof (forecast_loop_rows this_year g c o n i p) as L;
      destruct (forecast_loop this_year g c o n i p) as [is0 bs0]
  end.
  intros E. injection E as <- _.
  destruct L as [_ [_ [M _]]].
  eapply Forall_impl; [|exact M].
  intros r [M1 [M2 [M3 M4]]]. cbv beta.
  rewrite M4, M3, M1, M2. repeat split; field; exact Hrev.
Qed.

(** Scenario 5 (revenue 1000, cost of goods sold 400) forecast over three
    years: cost of goods sold stays at 40% of revenue. *)
Lemma forecast_keeps_margins_witness :
  exists is_rows bs_rows,
    forecast_financials 2024 5 (fst (forecast_assumptions scenario5_is))
      (snd (forecast_assumptions scenario5_is)) scenario5_is scenario5_bs 3
    = Some (is_rows, bs_rows)
    /\ Forall (fun r => fi_Cost_of_Goods_Sold r * 1000 == fi_Sales_Revenue r * 400)
         is_rows.
Proof.
  destruct (forecast_financials 2024 5 (fst (forecast_assumptions scenario5_is))
              (snd (forecast_assumptions scenario5_is)) scenario5_is scenario5_bs 3)
    as [[is_rows bs_rows]|] eqn:E; [|discriminate E].
  exists is_rows, bs_rows. split; [reflexivity|].
  assert (Hrev : ~ item_sum "Sales Revenue" scenario5_is == 0) by discriminate.
  pose proof (forecast_keeps_margins 2024 5 scenario5_is scenario5_bs 3
                is_rows bs_rows Hrev E) as H.
  eapply Forall_impl; [|exact H].
  intros r [H1 _].
  assert (R : item_sum "Sales Revenue" scenario5_is == 1000) by reflexivity.
  assert (K : item_sum "Cost of Goods Sold" scenario5_is == 400) by reflexivity.
  rewrite R, K in H1. exact H1.
Defined.

(** X16.  The scenario analysis with both sliders at zero gives back the
    base net income when the uploaded revenue is not zero; when it is
    zero, the scenario net income is minus the operating expenses,
    whatever the cost of goods sold and the sliders. *)
Theorem scenario_at_rest :
  forall is_df,
    let revenue := item_sum "Sales Revenue" is_df in
    (~ revenue == 0 ->
     snd (scenario_analysis is_df 0 0) == fst (scenario_analysis is_df 0 0))
    /\ (revenue == 0 ->
        forall growth_impact cogs_impact,
          snd (scenario_analysis is_df growth_impact cogs_impact)
          == - item_sum "Operating Expenses" is_df
          /\ fst (scenario_analysis is_df growth_impact cogs_impact)
             == - item_sum "Cost of Goods Sold" is_df
                - item_sum "Operating Expenses" is_df).
Proof.
  intros is_df revenue. unfold scenario_analysis. cbv zeta. cbn [fst snd].
  rewrite !item_or_zero_sum. fold revenue. split.
  - intros H. rewrite (truthy_nonzero _ H). field. exact H.
  - intros H growth_impact cogs_impact. rewrite (truthy_zero _ H).
    split; rewrite H; ring.
Qed.

Lemma scenario_at_rest_witness :
  snd (scenario_analysis scenario5_is 0 0) == fst (scenario_analysis scenario5_is 0 0)
  /\ snd (scenario_analysis [mkLine "Cost of Goods Sold" 400] 5 2) == - 0.
Proof.
  split.
  - apply (proj1 (scenario_at_rest scenario5_is)). discriminate.
  - destruct (proj2 (scenario_at_rest [mkLine "Cost of Goods Sold" 400])
                (Qeq_refl 0) 5 2) as [H _].
    exact H.
Defined.

(** ** More of the ratios *)

(** X17.  [calculate_ratios] always returns its eight ratios, in the same
    order.  Return on assets is 0 when total assets are 0, and return on
    equity is 0 when the owner's equity is 0 (where debt-to-equity is
    infinite).  With positive current liabilities and a non-negative
    inventory, the quick ratio and the current ratio are both finite and
    the quick ratio does not exceed the current ratio. *)
Theorem ratio_table :
  forall is_df bs_df,
    let ratios := calculate_ratios is_df bs_df in
    let total_assets :=
      item_sum "Cash" bs_df + item_sum "Accounts Receivable" bs_df
      + item_sum "Inventory" bs_df + item_sum "Fixed Assets (Net)" bs_df in
    map fst ratios
    = [ "Gross Profit Margin"; "Net Profit Margin"; "Current Ratio"; "Quick Ratio";
        "Debt-to-Equity Ratio"; "Accounts Receivable Turnover (Days)";
        "Return on Assets (ROA)"; "Return on Equity (ROE)" ]
    /\ (total_assets == 0 ->
        ratio_of "Return on Assets (ROA)" ratios = Some (Finite 0))
    /\ (item_sum "Owner's Equity (Simplified)" bs_df == 0 ->
        ratio_of "Return on Equity (ROE)" ratios = Some (Finite 0)
        /\ ratio_of "Debt-to-Equity Ratio" ratios = Some Infinity)
    /\ (0 < item_sum "Accounts Payable" bs_df ->
        0 <= item_sum "Inventory" bs_df ->
        exists quick current,
          ratio_of "Quick Ratio" ratios = Some (Finite quick)
          /\ ratio_of "Current Ratio" ratios = Some (Finite current)
          /\ quick <= current).
Proof.
  intros is_df bs_df ratios total_assets. subst ratios total_assets.
  split; [reflexivity|]. split; [|split].
  - intros H. ratio_lookup. rewrite (truthy_zero _ H). reflexivity.
  - intros H. ratio_lookup. rewrite (truthy_zero _ H). split; reflexivity.
  - intros Hap Hinv. ratio_lookup.
    assert (T : truthy (item_sum "Accounts Payable" bs_df) = true).
    { apply truthy_nonzero. lra. }
    rewrite T. eexists. eexists. split; [reflexivity|]. split; [reflexivity|].
    set (ap := item_sum "Accounts Payable" bs_df) in *.
    set (inv := item_sum "Inventory" bs_df) in *.
    set (ca := item_sum "Cash" bs_df + item_sum "Accounts Receivable" bs_df + inv).
    unfold Qdiv. apply Qmult_le_compat_r; [lra|].
    apply Qlt_le_weak, Qinv_lt_0_compat. exact Hap.
Qed.

(** Scenario 5 with 100 of payables: quick ratio 3, current ratio 3.5. *)
Lemma ratio_table_witness :
  let bs := [ mkLine "Cash" 200; mkLine "Accounts Receivable" 100;
              mkLine "Inventory" 50; mkLine "Accounts Payable" 100 ] in
  (exists quick current,
      ratio_of "Quick Ratio" (calculate_ratios scenario5_is bs) = Some (Finite quick)
      /\ ratio_of "Current Ratio" (calculate_ratios scenario5_is bs)
         = Some (Finite current)
      /\ quick <= current)
  /\ ratio_of "Return on Assets (ROA)" (calculate_ratios [] []) = Some (Finite 0)
  /\ ratio_of "Return on Equity (ROE)" (calculate_ratios [] []) = Some (Finite 0).
Proof.
  intros bs.
  destruct (ratio_table scenario5_is bs) as [_ [_ [_ Liquid]]].
  destruct (ratio_table [] []) as [_ [Roa [Roe _]]].
  split; [apply Liquid; [reflexivity | discriminate]|].
  split; [exact (Roa (Qeq_refl 0)) | exact (proj1 (Roe (Qeq_refl 0)))].
Defined.

(** ** The order of the trial balance *)

Lemma string_compare_trans a :
  forall b c,
    String.compare a b <> Gt -> String.compare b c <> Gt -> String.compare a c <> Gt.
Proof.
  induction a as [|x a IH]; intros [|y b] [|z c]; simpl; try congruence.
  unfold Ascii.compare.
  destruct (N.compare_spec (N_of_ascii x) (N_of_ascii y)) as [E1|L1|G1];
    destruct (N.compare_spec (N_of_ascii y) (N_of_ascii z)) as [E2|L2|G2];
    destruct (N.compare_spec (N_of_ascii x) (N_of_ascii z)) as [E3|L3|G3];
    try congruence; try lia.
  apply IH.
Qed.

Lemma string_leb_trans a b c :
  String.leb a b = true -> String.leb b c = true -> String.leb a c = true.
Proof.
  unfold String.leb. intros H1 H2.
  pose proof (string_compare_trans a b c) as T.
  destruct (String.compare a b); destruct (String.compare b c);
    destruct (String.compare a c); try reflexivity; try discriminate;
    exfalso; apply T; congruence.
Qed.

Lemma insert_key_sorted a keys :
  StronglySorted (fun x y => String.leb x y = true) keys ->
  StronglySorted (fun x y => String.leb x y = true) (insert_key a keys).
Proof.
  induction keys as [|b keys IH]; simpl; intros H.
  - constructor; constructor.
  - inversion H as [|x l Hs Hall]; subst.
    destruct (String.leb a b) eqn:E.
    + constructor; [exact H|]. constructor; [exact E|].
      eapply Forall_impl; [|exact Hall].
      intros y Hy. exact (string_leb_trans a b y E Hy).
    + constructor; [apply IH; exact Hs|].
      apply Forall_forall. intros y Hy. apply insert_key_in in Hy.
      destruct Hy as [->|Hy].
      * destruct (String.leb_total a b) as [T|T]; [congruence | exact T].
      * exact (proj1 (Forall_forall _ _) Hall y Hy).
Qed.

Lemma group_keys_sorted gl :
  StronglySorted (fun x y => String.leb x y = true) (group_keys gl).
Proof.
  unfold group_keys.
  induction (nodup string_dec (map gl_Account gl)) as [|a l IH]; simpl.
  - constructor.
  - apply insert_key_sorted, IH.
Qed.

Lemma sorted_filter {A : Type} (R : A -> A -> Prop) (f : A -> bool) l :
  StronglySorted R l -> StronglySorted R (filter f l).
Proof.
  induction l as [|a l IH]; simpl; intros H; [constructor|].
  inversion H as [|x y Hs Hall]; subst.
  destruct (f a); [|apply IH; exact Hs].
  constructor; [apply IH; exact Hs|].
  apply Forall_forall. intros y Hy. apply filter_In in Hy.
  exact (proj1 (Forall_forall _ _) Hall y (proj1 Hy)).
Qed.

Lemma sorted_strict l :
  NoDup l ->
  StronglySorted (fun x y => String.leb x y = true) l ->
  StronglySorted (fun x y => String.ltb x y = true) l.
Proof.
  induction l as [|a l IH]; intros Hn Hs; [constructor|].
  inversion Hn as [|x y Hnot Hn']; subst.
  inversion Hs as [|x y Hs' Hall]; subst.
  constructor; [apply IH; assumption|].
  apply Forall_forall. intros y Hy.
  pose proof (proj1 (Forall_forall _ _) Hall y Hy) as Hle.
  unfold String.leb in Hle. unfold String.ltb.
  destruct (String.compare a y) eqn:C; try reflexivity; try discriminate.
  apply String.compare_eq_iff in C. subst. contradiction.
Qed.

(** X18.  The account rows of the trial balance (all rows but the Total
    row) come in strictly increasing order of their account names, as
    strings. *)
Theorem trial_balance_order :
  forall gl,
    StronglySorted (fun x y => String.ltb x y = true)
      (map t_Account (removelast (generate_trial_balance gl))).
Proof.
  intros gl.
  destruct (trial_balance_shape gl) as [E | [r [rows [Hrows E]]]].
  - rewrite E. constructor.
  - rewrite E, removelast_last, <- Hrows, trial_balance_rows_accounts.
    apply sorted_strict.
    + apply NoDup_filter, group_keys_nodup.
    + apply sorted_filter, group_keys_sorted.
Qed.

(** ** Refusals and validation *)

(** X19.  An event that does not end in success leaves the whole session
    as it was: every error or warning is a refusal without side effect. *)
Theorem refusal_changes_nothing :
  forall e s, fst (fst (handle e s)) <> success -> snd (handle e s) = s.
Proof.
  intros e s. destruct e; simpl handle.
  - unfold submit_receivable.
    destruct (nonempty customer && Qlt_bool 0 amount); simpl; congruence.
  - unfold submit_payable.
    destruct (nonempty vendor_category && Qlt_bool 0 amount); simpl; congruence.
  - unfold submit_inventory.
    destruct (nonempty item_name && (0 <=? quantity)%Z && Qle_bool 0 unit_cost
              && Qle_bool 0 selling_price); [|reflexivity].
    destruct (item_in item_name (inventory s)); [|simpl; congruence].
    destruct (item_index item_name (inventory s)); simpl; congruence.
  - unfold submit_asset.
    destruct (nonempty asset_name && Qlt_bool 0 cost && (0 <? useful_life)%Z
              && nonempty asset_category && nonempty asset_location);
      simpl; congruence.
  - unfold calculate_and_post_depreciation.
    destruct (fixed_assets s); [reflexivity|].
    destruct (depreciation_posted (year today) (general_ledger s));
      simpl; congruence.
  - unfold add_sale_record.
    destruct (negb (item_in item (inventory s))); [reflexivity|].
    destruct (item_index item (inventory s)) as [idx|]; [|reflexivity].
    destruct (nth_error (inventory s) idx) as [item_row|]; [|reflexivity].
    destruct (i_Quantity item_row <? quantity)%Z; [reflexivity|].
    simpl. congruence.
Qed.

(** A receivable of amount 0 on the session of Scenario 2. *)
Lemma refusal_changes_nothing_witness :
  snd (handle (Receivable (mkDate 2024 3 3) "Acme" "Cash" 0 "") scenario2) = scenario2.
Proof.
  apply refusal_changes_nothing. discriminate.
Defined.

Lemma nonempty_iff s : nonempty s = true <-> s <> ""%string.
Proof.
  destruct s; simpl; split; intros H; congruence.
Qed.

(** X20.  What the four forms accept.  A receivable or a payable goes
    through exactly when its name is not empty and its amount is positive;
    an inventory item exactly when its name is not empty and its quantity,
    unit cost and selling price are not negative; a fixed asset exactly
    when its name, category and location are not empty, its cost is
    positive and its useful life is positive, whatever its salvage
    value. *)
Theorem form_validation :
  forall s,
    (forall d customer record_type amount description,
        fst (fst (handle (Receivable d customer record_type amount description) s))
        = success
        <-> customer <> ""%string /\ 0 < amount)
    /\ (forall d vendor_category amount description,
           fst (fst (handle (Payable d vendor_category amount description) s))
           = success
           <-> vendor_category <> ""%string /\ 0 < amount)
    /\ (forall now item_name quantity unit_cost selling_price,
           fst (fst (handle (Inventory now item_name quantity unit_cost selling_price) s))
           = success
           <-> item_name <> ""%string /\ (0 <= quantity)%Z
               /\ 0 <= unit_cost /\ 0 <= selling_price)
    /\ (forall name category location d cost salvage life,
           fst (fst (handle (Acquisition name category location d cost salvage life) s))
           = success
           <-> name <> ""%string /\ category <> ""%string /\ location <> ""%string
               /\ 0 < cost /\ (0 < life)%Z).
Proof.
  intros s. split; [|split; [|split]].
  - intros d customer record_type amount description. simpl handle.
    unfold submit_receivable.
    rewrite <- nonempty_iff, <- Qlt_bool_iff.
    destruct (nonempty customer); destruct (Qlt_bool 0 amount); simpl;
      intuition discriminate.
  - intros d vendor_category amount description. simpl handle.
    unfold submit_payable.
    rewrite <- nonempty_iff, <- Qlt_bool_iff.
    destruct (nonempty vendor_category); destruct (Qlt_bool 0 amount); simpl;
      intuition discriminate.
  - intros now item_name quantity unit_cost selling_price. simpl handle.
    unfold submit_inventory.
    rewrite <- nonempty_iff, <- Z.leb_le, <- !Qle_bool_iff.
    pose proof (item_lookup item_name (inventory s)) as L.
    destruct (nonempty item_name); destruct (0 <=? quantity)%Z;
      destruct (Qle_bool 0 unit_cost); destruct (Qle_bool 0 selling_price); simpl;
      try (intuition discriminate).
    destruct (item_row_of item_name (inventory s)).
    + destruct L as [Hin [idx [Hi _]]]. rewrite Hin, Hi. simpl. intuition.
    + destruct L as [Hin _]. rewrite Hin. simpl. intuition.
  - intros name category location d cost salvage life. simpl handle.
    unfold submit_asset.
    rewrite <- !nonempty_iff, <- Qlt_bool_iff, <- Z.ltb_lt.
    destruct (nonempty name); destruct (Qlt_bool 0 cost); destruct (0 <? life)%Z;
      destruct (nonempty category); destruct (nonempty location); simpl;
      intuition discriminate.
Qed.

(** ** Stocking and looking up *)

Lemma find_app_absent {A : Type} (f : A -> bool) l x :
  find f l = None -> find f (l ++ [x]) = if f x then Some x else None.
Proof.
  induction l as [|a l IH]; simpl; [reflexivity|].
  destruct (f a); [discriminate | exact IH].
Qed.

Lemma find_app_other {A : Type} (f : A -> bool) l x :
  f x = false -> find f (l ++ [x]) = find f l.
Proof.
  intros H. induction l as [|a l IH]; simpl; [rewrite H; reflexivity|].
  destruct (f a); [reflexivity | exact IH].
Qed.

(** X21.  Whatever the inventory held, after a submission the form accepts
    the row of the submitted name holds exactly the submitted quantity,
    unit cost, selling price and timestamp, and the row of every other
    name is the one it was. *)
Theorem stocked_item_found :
  forall now name quantity unit_cost selling_price s,
    name <> ""%string -> (0 <= quantity)%Z -> 0 <= unit_cost -> 0 <= selling_price ->
    let s' := snd (submit_inventory now name quantity unit_cost selling_price s) in
    item_row_of name (inventory s')
    = Some (mkItem name quantity unit_cost selling_price now)
    /\ forall other, other <> name ->
         item_row_of other (inventory s') = item_row_of other (inventory s).
Proof.
  intros now name quantity unit_cost selling_price s Hname Hq Hc Hp s'. subst s'.
  unfold submit_inventory.
  apply nonempty_iff in Hname. apply Z.leb_le in Hq.
  apply Qle_bool_iff in Hc. apply Qle_bool_iff in Hp.
  rewrite Hname, Hq, Hc, Hp. simpl andb. cbv iota.
  pose proof (item_lookup name (inventory s)) as L.
  destruct (item_row_of name (inventory s)) as [row|] eqn:Hrow.
  - destruct L as [Hin [idx [Hi Hn]]]. rewrite Hin, Hi. simpl. split.
    + rewrite (update_at_lookup _ name name) by (reflexivity || exact Hi).
      rewrite String.eqb_refl, Hrow. simpl. unfold restock.
      unfold item_row_of in Hrow. apply find_some in Hrow.
      destruct Hrow as [_ E]. apply String.eqb_eq in E. rewrite E. reflexivity.
    + intros other Hne.
      rewrite (update_at_lookup _ name other) by (reflexivity || exact Hi).
      apply String.eqb_neq in Hne. rewrite Hne. reflexivity.
  - destruct L as [Hin _]. rewrite Hin. simpl. unfold item_row_of in *. split.
    + rewrite find_app_absent by exact Hrow. simpl.
      rewrite String.eqb_refl. reflexivity.
    + intros other Hne. apply find_app_other. simpl.
      apply String.eqb_neq. congruence.
Qed.

(** A Gadget stocked beside the Widgets of Scenario 2. *)
Lemma stocked_item_found_witness :
  let s' := snd (submit_inventory "2024-03-04 09:00:00" "Gadget" 2 3 4 scenario2) in
  item_row_of "Gadget" (inventory s')
  = Some (mkItem "Gadget" 2 3 4 "2024-03-04 09:00:00")
  /\ item_row_of "Widget" (inventory s') = item_row_of "Widget" (inventory scenario2).
Proof.
  intros s'.
  destruct (stocked_item_found "2024-03-04 09:00:00" "Gadget" 2%Z 3 4 scenario2)
    as [Hnew Hold].
  - discriminate.
  - discriminate.
  - discriminate.
  - discriminate.
  - split; [exact Hnew|]. apply Hold. discriminate.
Defined.

(** The truck is accepted; a receivable of amount 0 is not. *)
Lemma form_validation_witness :
  fst (fst (handle truck_acquired empty_session)) = success
  /\ fst (fst (handle (Receivable (mkDate 2024 3 3) "Acme" "Cash" 0 "") empty_session))
     <> success.
Proof.
  destruct (form_validation empty_session) as [Rec [_ [_ Acq]]].
  split.
  - apply (proj2 (Acq "Truck" "Vehicle" "HQ" (mkDate 2024 1 15) 1200 200 5%Z)).
    repeat split; discriminate.
  - intros H.
    apply (proj1 (Rec (mkDate 2024 3 3) "Acme" "Cash" 0 ""%string)) in H.
    destruct H as [_ H]. discriminate H.
Defined.

(** The trial balance of Scenario 2: four account rows and the Total. *)
Lemma trial_balance_rows_witness :
  exists rows,
    generate_trial_balance (general_ledger scenario2)
    = rows ++ [mkTB "Total" (col_sum t_Debit rows) (col_sum t_Credit rows)]
    /\ NoDup (map t_Account rows).
Proof.
  destruct (trial_balance_rows (general_ledger scenario2))
    as [E | [rows [_ [E [Hnd _]]]]].
  - vm_compute in E. discriminate E.
  - exists rows. split; assumption.
Defined.
